(** * ImpactDecoder: packet decoders of impacket (branch WEP)

    A shallow embedding of [impacket/ImpactDecoder.py]: the decoders that
    turn a raw buffer into a chain of protocol nodes, the lookup of a node
    by its class, the confidentiality chain of protected 802.11 data frames
    and the RC4 loops of the WEP decryption.

    The header classes ([ImpactPacket.*], [dot11.*]) live in other modules;
    they enter through the [HeaderModel] interface below. *)

From Stdlib.Strings Require Import String Byte.
From Stdlib Require Import List ZArith NArith Lia Bool Arith Permutation.
Import ListNotations.

Set Implicit Arguments.
Set Warnings "-register-all".

(** ** Python values *)

(** A Python 2 [str]: a sequence of bytes. *)
Definition bytes := list byte.

(** [ord(c)] and [chr(n)]; [chr] raises ValueError outside [0, 256). *)
Definition ord (c : byte) : Z := Z.of_N (Byte.to_N c).

Definition chr (n : Z) : option byte :=
  if (0 <=? n)%Z && (n <? 256)%Z then Byte.of_N (Z.to_N n) else None.

(** The exceptions that the decoders themselves can raise. *)
Inductive exn : Type :=
| NameError (name : string)
| UnboundLocalError (name : string)
| AttributeError (name : string)
| ZeroDivisionError
| ValueError
| HeaderError (what : string).

(** The outcome of a call: a value, or a raised exception. *)
Inductive result (A : Type) : Type :=
| Ok (a : A)
| Raise (e : exn).

Arguments Ok {A} a.
Arguments Raise {A} e.

Definition bind {A B : Type} (r : result A) (k : A -> result B) : result B :=
  match r with
  | Ok a => k a
  | Raise e => Raise e
  end.

Declare Scope py_scope.
Delimit Scope py_scope with py.
Notation "x <- r ;; k" := (bind r (fun x => k))
  (at level 61, r at next level, right associativity) : py_scope.
Local Open Scope py_scope.

(** A name that no scope of the module binds: evaluating it raises. *)
Definition unbound_global (A : Type) (name : string) : result A :=
  Raise (NameError name).

(** An attribute that neither the instance nor its classes define. *)
Definition missing_attribute (A : Type) (name : string) : result A :=
  Raise (AttributeError name).

(** ** Slices

    [aBuffer[off:]] and [aBuffer[off:end]] for offsets that are counts of
    bytes (never negative): a slice never raises, it clips to the buffer,
    and it is empty when [end <= off]. *)
Definition slice_from (off : nat) (b : bytes) : bytes := skipn off b.

Definition slice (off stop : nat) (b : bytes) : bytes :=
  firstn (stop - off) (skipn off b).

(** ** Protocol nodes *)

(** The class of a node: the [ImpactPacket] and [dot11] header classes
    that the decoders instantiate. *)
Inductive kind : Type :=
| Ethernet | LinuxSLL | IP | ARP | UDP | TCP | ICMP | Data
| Dot11DataFrame | Dot11DataQoSFrame | Dot11DataAddr4Frame
| Dot11DataAddr4QoSFrame
| Dot11WEP | Dot11WEPData | Dot11WPA | Dot11WPAData
| Dot11WPA2 | Dot11WPA2Data
| LLC | SNAP.

Definition kind_eq_dec (a b : kind) : {a = b} + {a <> b}.
Proof. decide equality. Defined.

Definition kind_eqb (a b : kind) : bool :=
  if kind_eq_dec a b then true else false.

(** A node: its class, the buffer its constructor was given, and the
    child attached by [contains] (at most one). *)
Inductive node : Type :=
| Node (cls : kind) (raw : bytes) (child : option node).

Definition cls (n : node) : kind := let 'Node k _ _ := n in k.
Definition raw (n : node) : bytes := let 'Node _ r _ := n in r.
Definition child (n : node) : option node := let 'Node _ _ c := n in c.

(** [K(aBuffer)]: a fresh node without a child. *)
Definition new (k : kind) (aBuffer : bytes) : node := Node k aBuffer None.

(** [p.contains(packet)]: attach the child. *)
Definition contains (p packet : node) : node :=
  Node (cls p) (raw p) (Some packet).

(** The nodes met from [n] along the child links, [n] first. *)
Fixpoint chain (n : node) : list node :=
  match n with
  | Node _ _ None => [n]
  | Node _ _ (Some c) => n :: chain c
  end.

(** ** Results of the signature checks

    What [is_WEP()], [is_WPA()] and [is_WPA2()] return: [True], [False]
    or, where the check is written [b and x] over a header bit, an
    integer. The decoders compare that value with [is False], which is
    identity with the object [False]: the integer 0 is false as a
    condition but is not [False]. *)
Inductive checked : Type :=
| PyBool (b : bool)
| PyInt (z : Z).

Definition is_False (v : checked) : bool :=
  match v with
  | PyBool false => true
  | _ => false
  end.

(** The value as a condition ([if v:]). *)
Definition holds (v : checked) : bool :=
  match v with
  | PyBool b => b
  | PyInt z => negb (z =? 0)%Z
  end.

(** [a and b], [not a]. *)
Definition py_and (a b : checked) : checked := if holds a then b else a.

Definition py_not (a : checked) : checked := PyBool (negb (holds a)).

(** ** The header model

    What the decoders use of [ImpactPacket] and [dot11]: the constants
    they compare against and the accessors they call, each as a function
    of the buffer the header object was built from. Sizes and lengths are
    counts of bytes. *)
Class HeaderModel : Type := {
  IP_ethertype : Z;
  ARP_ethertype : Z;
  UDP_protocol : Z;
  TCP_protocol : Z;
  ICMP_protocol : Z;
  ICMP_UNREACH : Z;
  SAPTypes_SNAP : Z;
  DLC_UNNUMBERED_FRAMES : Z;
  get_header_size : kind -> bytes -> nat;
  get_ether_type : kind -> bytes -> Z;
  get_ip_len : bytes -> nat;
  get_ip_p : bytes -> Z;
  get_icmp_type : bytes -> Z;
  body_string : kind -> bytes -> bytes;
  is_WEP : bytes -> checked;
  is_WPA : bytes -> checked;
  is_WPA2 : bytes -> checked;
  Dot11WEP_decrypt_data : bytes -> result bytes;
  Dot11WPA_get_decrypted_data : bytes -> result bytes;
  Dot11WPA2_get_decrypted_data : bytes -> result bytes;
  get_DSAP : bytes -> Z;
  get_SSAP : bytes -> Z;
  get_control : bytes -> Z;
  get_OUI : bytes -> Z;
  get_protoID : bytes -> Z
}.

(** ** class Decoder *)

(** A decoder instance: the node recorded by [set_decoded_protocol].
    Every [decode] records the header object it has just built, attaches
    the child to that same object with [contains] and returns it: what
    the instance holds after a decode is the node that the decode
    returned, child included. The [decode] functions below return that
    node; [set_decoded_protocol] applied to it gives the instance. *)
Record Decoder : Type := { decoded_protocol : option node }.

Definition Decoder_new : Decoder := {| decoded_protocol := None |}.

Definition set_decoded_protocol (self : Decoder) (protocol : node) : Decoder :=
  {| decoded_protocol := Some protocol |}.

(** The loop of [get_protocol], started at [protocol]:
    [while protocol: if protocol.__class__ == aprotocol: break;
     protocol = protocol.child()]. Header objects define neither
    [__nonzero__] nor [__len__], so a node is true and only [None] ends
    the loop. *)
Fixpoint get_protocol_from (protocol : node) (aprotocol : kind) : option node :=
  if kind_eqb (cls protocol) aprotocol then Some protocol
  else
    match protocol with
    | Node _ _ (Some c) => get_protocol_from c aprotocol
    | Node _ _ None => None
    end.

Definition get_protocol (self : Decoder) (aprotocol : kind) : option node :=
  match decoded_protocol self with
  | Some protocol => get_protocol_from protocol aprotocol
  | None => None
  end.

Section Decoders.

Context {hm : HeaderModel}.

(** [p.body_string] of a node. *)
Definition body_of (p : node) : bytes := body_string (cls p) (raw p).

(** A header node of class [k] over [aBuffer] whose child is the opaque
    node over its body: what a scheme decoder builds without a key. *)
Definition sealed (k : kind) (aBuffer : bytes) : node :=
  Node k aBuffer (Some (Node Data (body_string k aBuffer) None)).

(** ** Link, network and transport decoders *)

Definition DataDecoder_decode (aBuffer : bytes) : result node :=
  Ok (new Data aBuffer).

Definition UDPDecoder_decode (aBuffer : bytes) : result node :=
  let u := new UDP aBuffer in
  let off := get_header_size UDP aBuffer in
  packet <- DataDecoder_decode (slice_from off aBuffer) ;;
  Ok (contains u packet).

Definition TCPDecoder_decode (aBuffer : bytes) : result node :=
  let t := new TCP aBuffer in
  let off := get_header_size TCP aBuffer in
  packet <- DataDecoder_decode (slice_from off aBuffer) ;;
  Ok (contains t packet).

Definition ARPDecoder_decode (aBuffer : bytes) : result node :=
  let arp := new ARP aBuffer in
  let off := get_header_size ARP aBuffer in
  packet <- DataDecoder_decode (slice_from off aBuffer) ;;
  Ok (contains arp packet).

(** The IP decoder for the header embedded in ICMP unreachable messages. *)
Definition IPDecoderForICMP_decode (aBuffer : bytes) : result node :=
  let i := new IP aBuffer in
  let off := get_header_size IP aBuffer in
  packet <-
    (if (get_ip_p aBuffer =? UDP_protocol)%Z
     then UDPDecoder_decode (slice_from off aBuffer)
     else DataDecoder_decode (slice_from off aBuffer)) ;;
  Ok (contains i packet).

Definition ICMPDecoder_decode (aBuffer : bytes) : result node :=
  let ic := new ICMP aBuffer in
  let off := get_header_size ICMP aBuffer in
  packet <-
    (if (get_icmp_type aBuffer =? ICMP_UNREACH)%Z
     then IPDecoderForICMP_decode (slice_from off aBuffer)
     else DataDecoder_decode (slice_from off aBuffer)) ;;
  Ok (contains ic packet).

Definition IPDecoder_decode (aBuffer : bytes) : result node :=
  let i := new IP aBuffer in
  let off := get_header_size IP aBuffer in
  let stop := get_ip_len aBuffer in
  packet <-
    (if (get_ip_p aBuffer =? UDP_protocol)%Z
     then UDPDecoder_decode (slice off stop aBuffer)
     else if (get_ip_p aBuffer =? TCP_protocol)%Z
     then TCPDecoder_decode (slice off stop aBuffer)
     else if (get_ip_p aBuffer =? ICMP_protocol)%Z
     then ICMPDecoder_decode (slice off stop aBuffer)
     else DataDecoder_decode (slice off stop aBuffer)) ;;
  Ok (contains i packet).

Definition EthDecoder_decode (aBuffer : bytes) : result node :=
  let e := new Ethernet aBuffer in
  let off := get_header_size Ethernet aBuffer in
  packet <-
    (if (get_ether_type Ethernet aBuffer =? IP_ethertype)%Z
     then IPDecoder_decode (slice_from off aBuffer)
     else if (get_ether_type Ethernet aBuffer =? ARP_ethertype)%Z
     then ARPDecoder_decode (slice_from off aBuffer)
     else DataDecoder_decode (slice_from off aBuffer)) ;;
  Ok (contains e packet).

Definition LinuxSLLDecoder_decode (aBuffer : bytes) : result node :=
  let e := new LinuxSLL aBuffer in
  let off := 16 in
  packet <-
    (if (get_ether_type LinuxSLL aBuffer =? IP_ethertype)%Z
     then IPDecoder_decode (slice_from off aBuffer)
     else if (get_ether_type LinuxSLL aBuffer =? ARP_ethertype)%Z
     then ARPDecoder_decode (slice_from off aBuffer)
     else DataDecoder_decode (slice_from off aBuffer)) ;;
  Ok (contains e packet).

(** ** LLC and SNAP *)

Definition SNAPDecoder_decode (aBuffer : bytes) : result node :=
  let s := new SNAP aBuffer in
  packet <-
    (if negb (get_OUI aBuffer =? 0)%Z
     then DataDecoder_decode (body_of s)
     else if (get_protoID aBuffer =? IP_ethertype)%Z
     then IPDecoder_decode (body_of s)
     else if (get_protoID aBuffer =? ARP_ethertype)%Z
     then ARPDecoder_decode (body_of s)
     else DataDecoder_decode (body_of s)) ;;
  Ok (contains s packet).

(** The local [packet] of [LLCDecoder.decode] is a slot that the branches
    may leave unbound ([None]); the [else] belongs to the outermost [if]
    only. Reading an unbound local raises UnboundLocalError. *)
Definition LLCDecoder_decode (aBuffer : bytes) : result node :=
  let d := new LLC aBuffer in
  packet <-
    (if (get_DSAP aBuffer =? SAPTypes_SNAP)%Z then
       if (get_SSAP aBuffer =? SAPTypes_SNAP)%Z then
         if (get_control aBuffer =? DLC_UNNUMBERED_FRAMES)%Z then
           p <- SNAPDecoder_decode (body_of d) ;; Ok (Some p)
         else Ok None
       else Ok None
     else
       p <- DataDecoder_decode (body_of d) ;; Ok (Some p)) ;;
  match packet with
  | Some p => Ok (contains d p)
  | None => Raise (UnboundLocalError "packet")
  end.

(** ** Confidentiality decoders *)

(** [if key:] on the optional key: [None] and the empty string are false. *)
Definition truthy (key : option bytes) : bool :=
  match key with
  | Some (_ :: _) => true
  | _ => false
  end.

Definition Dot11WEPDataDecoder_decode (aBuffer : bytes) : result node :=
  let wep_data := new Dot11WEPData aBuffer in
  packet <- LLCDecoder_decode (body_of wep_data) ;;
  Ok (contains wep_data packet).

(** [Dot11WEPDecoder.decode], lines 392-397. The [def] ends after the
    signature test: the lines that follow it in the file ([if key:] ...
    [return wep]) are indented at the level of the class, outside the
    method, so the method returns [None] when the test holds and falls
    off its end, which is [None] again, when it does not. [None] is the
    result "not applicable". The key is not read. *)
Definition Dot11WEPDecoder_decode (aBuffer : bytes) (key : option bytes)
  : result (option node) :=
  let wep := new Dot11WEP aBuffer in
  if is_False (is_WEP aBuffer) then Ok None
  else Ok None.

(** [self.llc_decoder] is read but never assigned: the local
    [llc_decoder] is a different name. *)
Definition Dot11WPADataDecoder_decode (aBuffer : bytes) : result node :=
  let wpa_data := new Dot11WPAData aBuffer in
  llc_decoder <- missing_attribute (bytes -> result node) "llc_decoder" ;;
  packet <- llc_decoder (body_of wpa_data) ;;
  Ok (contains wpa_data packet).

(** The keyed branch names [Dot11DataWPADataDecoder], which the module
    does not define. *)
Definition Dot11WPADecoder_decode (aBuffer : bytes) (key : option bytes)
  : result (option node) :=
  let wpa := new Dot11WPA aBuffer in
  if is_False (is_WPA aBuffer) then Ok None
  else
    packet <-
      (if truthy key then
         decoded_string <- Dot11WPA_get_decrypted_data aBuffer ;;
         wpa_data <- unbound_global (bytes -> result node)
                       "Dot11DataWPADataDecoder" ;;
         wpa_data decoded_string
       else DataDecoder_decode (body_of wpa)) ;;
    Ok (Some (contains wpa packet)).

Definition Dot11WPA2DataDecoder_decode (aBuffer : bytes) : result node :=
  let wpa2_data := new Dot11WPA2Data aBuffer in
  llc_decoder <- missing_attribute (bytes -> result node) "llc_decoder" ;;
  packet <- llc_decoder (body_of wpa2_data) ;;
  Ok (contains wpa2_data packet).

Definition Dot11WPA2Decoder_decode (aBuffer : bytes) (key : option bytes)
  : result (option node) :=
  let wpa2 := new Dot11WPA2 aBuffer in
  if is_False (is_WPA2 aBuffer) then Ok None
  else
    packet <-
      (if truthy key then
         decoded_string <- Dot11WPA2_get_decrypted_data aBuffer ;;
         Dot11WPA2DataDecoder_decode decoded_string
       else DataDecoder_decode (body_of wpa2)) ;;
    Ok (Some (contains wpa2 packet)).

(** ** Data frames *)

(** The flags of a [Dot11DataDecoder] instance. *)
Record Dot11DataDecoder : Type := {
  QoS : bool;
  Addr4 : bool;
  Private : bool
}.

Definition Dot11DataDecoder_new : Dot11DataDecoder :=
  {| QoS := false; Addr4 := false; Private := false |}.

Definition set_QoS (self : Dot11DataDecoder) : Dot11DataDecoder :=
  {| QoS := true; Addr4 := Addr4 self; Private := Private self |}.

Definition set_Addr4 (self : Dot11DataDecoder) : Dot11DataDecoder :=
  {| QoS := QoS self; Addr4 := true; Private := Private self |}.

Definition set_privateFrame (self : Dot11DataDecoder) : Dot11DataDecoder :=
  {| QoS := QoS self; Addr4 := Addr4 self; Private := true |}.

(** The frame class chosen from the flags. *)
Definition data_frame_class (self : Dot11DataDecoder) : kind :=
  if Addr4 self then
    if QoS self then Dot11DataAddr4QoSFrame else Dot11DataAddr4Frame
  else if QoS self then Dot11DataQoSFrame
  else Dot11DataFrame.

Definition Dot11DataDecoder_decode (self : Dot11DataDecoder) (aBuffer : bytes)
  : result node :=
  let p := new (data_frame_class self) aBuffer in
  packet <-
    (if negb (Private self) then LLCDecoder_decode (body_of p)
     else
       packet <- Dot11WEPDecoder_decode (body_of p) None ;;
       match packet with
       | Some packet => Ok packet
       | None =>
         packet <- Dot11WPADecoder_decode (body_of p) None ;;
         match packet with
         | Some packet => Ok packet
         | None =>
           packet <- Dot11WPA2Decoder_decode (body_of p) None ;;
           match packet with
           | Some packet => Ok packet
           | None => DataDecoder_decode (body_of p)
           end
         end
       end) ;;
  Ok (contains p packet).

End Decoders.

(** ** WEP decryption: the RC4 loops of [decrypt_data] *)

(** [s = range(256)]; the same list is the range of the first loop. *)
Definition range256 : list Z := map Z.of_nat (seq 0 256).

(** [s[i]] and [s[i] = v] on the state list. Every index of the two loops
    is a member of [range(256)] or masked with [0xff], and the list keeps
    its 256 entries (see [SSWAP_length]), so no index is out of range. *)
Definition item (s : list Z) (i : Z) : Z := nth (Z.to_nat i) s 0%Z.

Fixpoint set_nat (s : list Z) (i : nat) (v : Z) : list Z :=
  match s, i with
  | [], _ => []
  | _ :: t, O => v :: t
  | h :: t, S i' => h :: set_nat t i' v
  end.

Definition set_item (s : list Z) (i : Z) (v : Z) : list Z :=
  set_nat s (Z.to_nat i) v.

(** [s[i],s[j] = s[j],s[i]]: the right-hand side is evaluated first, then
    [s[i]] is assigned, then [s[j]]. *)
Definition SSWAP (s : list Z) (i j : Z) : list Z :=
  let rhs := (item s j, item s i) in
  set_item (set_item s i (fst rhs)) j (snd rhs).

(** One round of the key-scheduling loop, state [(j, s)]. *)
Definition ksa_step (key : bytes) (st : Z * list Z) (i : Z) : Z * list Z :=
  let '(j, s) := st in
  let k := nth (Z.to_nat (i mod Z.of_nat (length key))) key x00 in
  let j := Z.land (j + item s i + ord k) 255 in
  (j, SSWAP s i j).

(** [j = 0; s = range(256); for i in range(256): ...]. With an empty key
    [i % len(key)] divides by zero in the first round. *)
Definition rc4_key_schedule (key : bytes) : result (list Z) :=
  match key with
  | [] => Raise ZeroDivisionError
  | _ => Ok (snd (fold_left (ksa_step key) range256 (0%Z, range256)))
  end.

(** One round of the second loop, state [(i, j, s, out)]; the keystream
    byte is [s[(s[i] + s[j]) & 0xff]] after the swap. *)
Definition keystream_step (st : Z * Z * list Z) : (Z * Z * list Z) * Z :=
  let '(i, j, s) := st in
  let i := Z.land (i + 1) 255 in
  let j := Z.land (j + item s i) 255 in
  let s := SSWAP s i j in
  ((i, j, s), item s (Z.land (item s i + item s j) 255)).

Definition rc4_step (st : result (Z * Z * list Z * bytes)) (c : byte)
  : result (Z * Z * list Z * bytes) :=
  st <- st ;;
  let '(ijs, out) := st in
  let '(ijs', k) := keystream_step ijs in
  match chr (Z.lxor (ord c) k) with
  | Some d => Ok (ijs', out ++ [d])
  | None => Raise ValueError
  end.

(** [out = ""; i = j = 0; for c in data: ...], run on the state [s] over
    the sequence [data]; the value is [out]. *)
Definition rc4_apply (s : list Z) (data : bytes) : result bytes :=
  st <- fold_left rc4_step data (Ok (0%Z, 0%Z, s, [])) ;;
  Ok (snd st).

(** The first [n] keystream bytes from a state. *)
Fixpoint keystream (st : Z * Z * list Z) (n : nat) : list Z :=
  match n with
  | O => []
  | S n' => let '(st', k) := keystream_step st in k :: keystream st' n'
  end.

(** A value that fits a byte, and a state list of such values. *)
Definition byte_range (z : Z) : Prop := (0 <= z < 256)%Z.

Definition state_ok (s : list Z) : Prop := Forall byte_range s.

(** The bytes [d], as numbers, xored position by position with [ks]. *)
Definition xor_with (ks d : list Z) : list Z :=
  map (fun p => Z.lxor (fst p) (snd p)) (combine d ks).

(** What [decrypt_data] returns: a string, or a header object. *)
Inductive pyval : Type :=
| PyStr (s : bytes)
| PyObj (n : node).

(** [decrypt_data(self, key_string)]. The receiver supplies
    [self.body_string] and [self.get_iv()]. The names [data] and
    [Dot11WEPData] are bound neither in the method nor in the module. *)
Definition decrypt_data (body_string get_iv key_string : bytes)
  : result pyval :=
  if length body_string <? 8 then Ok (PyStr body_string)
  else
    let key := get_iv ++ key_string in
    let keylen := 3 + length key_string in
    s <- rc4_key_schedule key ;;
    data <- unbound_global bytes "data" ;;
    out <- rc4_apply s data ;;
    Dot11WEPData_ <- unbound_global (bytes -> node) "Dot11WEPData" ;;
    let dwd := Dot11WEPData_ out in
    if false then Ok (PyObj dwd)
    else Ok (PyStr body_string).

(** ** A header model with the usual wire layouts

    The decoders above are stated over any [HeaderModel]. To run them on
    concrete frames, [wire_model] reads each accessor at the offset the
    protocol gives it on the wire. *)
Definition byte_at (b : bytes) (i : nat) : Z := ord (nth i b x00).

Definition word_at (b : bytes) (i : nat) : Z :=
  (byte_at b i * 256 + byte_at b (i + 1))%Z.

Definition wire_header_size (k : kind) (b : bytes) : nat :=
  match k with
  | Ethernet => 14
  | LinuxSLL => 16
  | IP => 4 * Z.to_nat (Z.land (byte_at b 0) 15)
  | ARP => 8 + 2 * Z.to_nat (byte_at b 4) + 2 * Z.to_nat (byte_at b 5)
  | UDP => 8
  | TCP => 4 * Z.to_nat (Z.shiftr (byte_at b 12) 4)
  | ICMP => 8
  | Data => 0
  | Dot11DataFrame => 22
  | Dot11DataQoSFrame => 24
  | Dot11DataAddr4Frame => 28
  | Dot11DataAddr4QoSFrame => 30
  | Dot11WEP => 4
  | Dot11WPA | Dot11WPA2 => 8
  | Dot11WEPData | Dot11WPAData | Dot11WPA2Data => 0
  | LLC => 3
  | SNAP => 5
  end.

Definition wire_tail_size (k : kind) : nat :=
  match k with
  | Dot11WEPData => 4
  | Dot11WPAData => 12
  | Dot11WPA2Data => 8
  | _ => 0
  end.

Definition wire_body_string (k : kind) (b : bytes) : bytes :=
  let rest := skipn (wire_header_size k b) b in
  firstn (length rest - wire_tail_size k) rest.

(** The ExtIV bit of the fourth byte, as the integer 0 or 1, and the
    test that the second byte is the TKIP seed of the first. *)
Definition wire_extIV (b : bytes) : checked :=
  PyInt (Z.land (Z.shiftr (byte_at b 3) 5) 1).

Definition wire_seed_matches (b : bytes) : bool :=
  (byte_at b 1 =? Z.land (Z.lor (byte_at b 0) 0x20) 0x7f)%Z.

(** Modelled from the spec: the header classes of [ImpactPacket] and
    [dot11] (constructors, [get_header_size], [body_string], the
    discriminant accessors, the [is_WEP]/[is_WPA]/[is_WPA2] checks and the
    decrypted-data accessors) are not part of this module. The spec asks
    of them a header size, the body bytes, the discriminants and the
    signature checks; this instance reads them at the standard offsets of
    each header. *)
Definition wire_model : HeaderModel := {|
  IP_ethertype := 0x800;
  ARP_ethertype := 0x806;
  UDP_protocol := 17;
  TCP_protocol := 6;
  ICMP_protocol := 1;
  ICMP_UNREACH := 3;
  SAPTypes_SNAP := 0xAA;
  DLC_UNNUMBERED_FRAMES := 0x03;
  get_header_size := wire_header_size;
  get_ether_type := fun k b =>
    match k with LinuxSLL => word_at b 14 | _ => word_at b 12 end;
  get_ip_len := fun b => Z.to_nat (word_at b 2);
  get_ip_p := fun b => byte_at b 9;
  get_icmp_type := fun b => byte_at b 0;
  body_string := wire_body_string;
  is_WEP := fun b => py_not (PyInt (Z.land (byte_at b 3) 0x20));
  is_WPA := fun b => py_and (PyBool (wire_seed_matches b)) (wire_extIV b);
  is_WPA2 := fun b =>
    py_and (py_not (PyBool (wire_seed_matches b))) (wire_extIV b);
  Dot11WEP_decrypt_data := fun _ => Raise (HeaderError "decrypt_data");
  Dot11WPA_get_decrypted_data := fun b => Ok (skipn 8 b);
  Dot11WPA2_get_decrypted_data := fun b => Ok (skipn 8 b);
  get_DSAP := fun b => byte_at b 0;
  get_SSAP := fun b => byte_at b 1;
  get_control := fun b => byte_at b 2;
  get_OUI := fun b =>
    (byte_at b 0 * 65536 + byte_at b 1 * 256 + byte_at b 2)%Z;
  get_protoID := fun b => word_at b 3
|}.

(** The header model [m] with other signature checks. *)
Definition with_checks (m : HeaderModel)
  (wep wpa wpa2 : bytes -> checked) : HeaderModel := {|
  IP_ethertype := @IP_ethertype m;
  ARP_ethertype := @ARP_ethertype m;
  UDP_protocol := @UDP_protocol m;
  TCP_protocol := @TCP_protocol m;
  ICMP_protocol := @ICMP_protocol m;
  ICMP_UNREACH := @ICMP_UNREACH m;
  SAPTypes_SNAP := @SAPTypes_SNAP m;
  DLC_UNNUMBERED_FRAMES := @DLC_UNNUMBERED_FRAMES m;
  get_header_size := @get_header_size m;
  get_ether_type := @get_ether_type m;
  get_ip_len := @get_ip_len m;
  get_ip_p := @get_ip_p m;
  get_icmp_type := @get_icmp_type m;
  body_string := @body_string m;
  is_WEP := wep;
  is_WPA := wpa;
  is_WPA2 := wpa2;
  Dot11WEP_decrypt_data := @Dot11WEP_decrypt_data m;
  Dot11WPA_get_decrypted_data := @Dot11WPA_get_decrypted_data m;
  Dot11WPA2_get_decrypted_data := @Dot11WPA2_get_decrypted_data m;
  get_DSAP := @get_DSAP m;
  get_SSAP := @get_SSAP m;
  get_control := @get_control m;
  get_OUI := @get_OUI m;
  get_protoID := @get_protoID m
|}.

(** The header model [m] with other decryption accessors. *)
Definition with_decrypt (m : HeaderModel)
  (wep wpa wpa2 : bytes -> result bytes) : HeaderModel := {|
  IP_ethertype := @IP_ethertype m;
  ARP_ethertype := @ARP_ethertype m;
  UDP_protocol := @UDP_protocol m;
  TCP_protocol := @TCP_protocol m;
  ICMP_protocol := @ICMP_protocol m;
  ICMP_UNREACH := @ICMP_UNREACH m;
  SAPTypes_SNAP := @SAPTypes_SNAP m;
  DLC_UNNUMBERED_FRAMES := @DLC_UNNUMBERED_FRAMES m;
  get_header_size := @get_header_size m;
  get_ether_type := @get_ether_type m;
  get_ip_len := @get_ip_len m;
  get_ip_p := @get_ip_p m;
  get_icmp_type := @get_icmp_type m;
  body_string := @body_string m;
  is_WEP := @is_WEP m;
  is_WPA := @is_WPA m;
  is_WPA2 := @is_WPA2 m;
  Dot11WEP_decrypt_data := wep;
  Dot11WPA_get_decrypted_data := wpa;
  Dot11WPA2_get_decrypted_data := wpa2;
  get_DSAP := @get_DSAP m;
  get_SSAP := @get_SSAP m;
  get_control := @get_control m;
  get_OUI := @get_OUI m;
  get_protoID := @get_protoID m
|}.

(** ** Sample frames *)

(** An ICMP destination-unreachable message (type 3) that carries the
    start of the offending datagram: an IP header announcing 84 bytes
    and the 8 bytes of its UDP header, 28 bytes in all. *)
Definition sample_icmp_unreach : bytes :=
  [x03; x03; x00; x00; x00; x00; x00; x00;
   x45; x00; x00; x54; x12; x34; x00; x00; x40; x11; x00; x00;
   x0a; x00; x00; x01; x0a; x00; x00; x02;
   x04; xd2; x00; x35; x00; x40; x00; x00].

(** An Ethernet frame with an IP datagram of 44 bytes (TCP header and
    four bytes of data) followed by two bytes of padding. *)
Definition sample_eth_tcp : bytes :=
  [x00; x11; x22; x33; x44; x55; x66; x77; x88; x99; xaa; xbb; x08; x00;
   x45; x00; x00; x2c; x00; x01; x00; x00; x40; x06; x00; x00;
   x0a; x00; x00; x01; x0a; x00; x00; x02;
   x04; xd2; x00; x50; x00; x00; x00; x01; x00; x00; x00; x00;
   x50; x02; x20; x00; x00; x00; x00; x00;
   x64; x61; x74; x61;
   xee; xee].

(** An LLC header with DSAP = SNAP, SSAP = 0 and the control value of
    unnumbered frames, followed by five bytes. *)
Definition sample_llc_dsap_only : bytes :=
  [xaa; x00; x03; x01; x02; x03; x04; x05].

(** A protected data frame after its frame control: the 22 bytes of a
    plain data-frame header, then a header of 8 bytes with the ExtIV bit
    set and a second byte that is not the TKIP seed of the first, then
    two bytes. *)
Definition sample_protected_ccmp : bytes :=
  repeat x00 22 ++ [x01; x00; x05; x20; x00; x00; x00; x00; x99; x98].

(** A WEP header (three bytes of IV, key id without the ExtIV bit) and
    eight bytes; the same with a second byte that happens to be the TKIP
    seed of the first; and a TKIP header with the ExtIV bit set. *)
Definition sample_wep_frame : bytes :=
  [x0a; x0b; x0c; x00; x01; x02; x03; x04; x05; x06; x07; x08].

Definition sample_wep_seedlike : bytes :=
  [x01; x21; x0c; x00; x01; x02; x03; x04; x05; x06; x07; x08].

Definition sample_tkip_frame : bytes :=
  [x01; x21; x00; x20; x00; x00; x00; x00; x99].

(** Nine bytes of text, as a body long enough for the RC4 loops. *)
Definition sample_plaintext : bytes :=
  [x70; x6c; x61; x69; x6e; x74; x65; x78; x74].

(** A WEP body of eight bytes, an IV and a secret key. *)
Definition sample_wep_body : bytes :=
  [x01; x02; x03; x04; x05; x06; x07; x08].

Definition sample_iv : bytes := [x0a; x0b; x0c].

Definition sample_key : bytes := [x6b; x65; x79; x30; x31].

(** ** Radiotap and 802.11 frames *)

(** The header classes of the radiotap, control and management decoders.
    [dot11.Dot11] is apart: its constructor also takes the FCS flag. *)
Inductive frame_class : Type :=
| RadioTap
| Dot11ControlFrameCTS | Dot11ControlFrameACK | Dot11ControlFrameRTS
| Dot11ControlFramePSPoll | Dot11ControlFrameCFEnd
| Dot11ControlFrameCFEndCFACK
| Dot11ManagementFrame | Dot11ManagementBeacon
| Dot11ManagementProbeRequest | Dot11ManagementProbeResponse.

(** A node of the wireless layers: [dot11.Dot11(aBuffer, FCS_at_end)],
    one of the classes above, or a node of the layers already modelled
    (a data frame, or the opaque Data node). *)
Inductive frame : Type :=
| Dot11Frame (FCS_at_end : bool) (r : bytes) (c : option frame)
| Frame (k : frame_class) (r : bytes) (c : option frame)
| Upper (n : node).

(** [f.contains(packet)] on a wireless node. *)
Definition frame_contains (f packet : frame) : frame :=
  match f with
  | Dot11Frame fcs r _ => Dot11Frame fcs r (Some packet)
  | Frame k r _ => Frame k r (Some packet)
  | Upper n => Upper n
  end.

Definition frame_child (f : frame) : option frame :=
  match f with
  | Dot11Frame _ _ c => c
  | Frame _ _ c => c
  | Upper n => option_map Upper (child n)
  end.

Definition frame_raw (f : frame) : bytes :=
  match f with
  | Dot11Frame _ r _ => r
  | Frame _ r _ => r
  | Upper n => raw n
  end.

(** The number of nodes from [f] down the child links. *)
Fixpoint frame_depth (f : frame) : nat :=
  match f with
  | Dot11Frame _ _ (Some c) => S (frame_depth c)
  | Frame _ _ (Some c) => S (frame_depth c)
  | Dot11Frame _ _ None => 1
  | Frame _ _ None => 1
  | Upper n => length (chain n)
  end.

(** What the wireless decoders use of [dot11]: the type and subtype
    constants, the radiotap accessors, and the accessors of a [Dot11]
    header, which depend on the FCS flag it was built with. *)
Class Dot11Model : Type := {
  DOT11_TYPE_CONTROL : Z;
  DOT11_TYPE_DATA : Z;
  DOT11_TYPE_MANAGEMENT : Z;
  DOT11_SUBTYPE_CONTROL_CLEAR_TO_SEND : Z;
  DOT11_SUBTYPE_CONTROL_ACKNOWLEDGMENT : Z;
  DOT11_SUBTYPE_CONTROL_REQUEST_TO_SEND : Z;
  DOT11_SUBTYPE_CONTROL_POWERSAVE_POLL : Z;
  DOT11_SUBTYPE_CONTROL_CF_END : Z;
  DOT11_SUBTYPE_CONTROL_CF_END_CF_ACK : Z;
  DOT11_SUBTYPE_MANAGEMENT_BEACON : Z;
  DOT11_SUBTYPE_MANAGEMENT_PROBE_REQUEST : Z;
  DOT11_SUBTYPE_MANAGEMENT_PROBE_RESPONSE : Z;
  PROPERTY_FCS_AT_END : Z;
  RadioTap_get_flags : bytes -> option Z;
  RadioTap_get_body_as_string : bytes -> bytes;
  Dot11_get_type : bool -> bytes -> Z;
  Dot11_get_subtype : bool -> bytes -> Z;
  Dot11_get_fromDS : bool -> bytes -> bool;
  Dot11_get_toDS : bool -> bytes -> bool;
  Dot11_is_QoS_frame : bool -> bytes -> bool;
  Dot11_get_protectedFrame : bool -> bytes -> bool;
  Dot11_body_string : bool -> bytes -> bytes;
  Dot11ManagementFrame_body_string : bytes -> bytes
}.

(** [not not x] on an integer. *)
Definition not_not (x : Z) : bool := negb (negb (negb (x =? 0)%Z)).

(** The [__FCS_at_end] attribute, [True] in the class. *)
Record Dot11Decoder : Type := { Dot11Decoder_FCS : bool }.

Definition Dot11Decoder_new : Dot11Decoder := {| Dot11Decoder_FCS := true |}.

Definition Dot11Decoder_FCS_at_end (self : Dot11Decoder) (fcs_at_end : Z)
  : Dot11Decoder :=
  {| Dot11Decoder_FCS := not_not fcs_at_end |}.

Record Dot11ControlDecoder : Type := { Dot11ControlDecoder_FCS : bool }.

Definition Dot11ControlDecoder_new : Dot11ControlDecoder :=
  {| Dot11ControlDecoder_FCS := true |}.

Definition Dot11ControlDecoder_FCS_at_end (self : Dot11ControlDecoder)
  (fcs_at_end : Z) : Dot11ControlDecoder :=
  {| Dot11ControlDecoder_FCS := not_not fcs_at_end |}.

(** The [subtype] attribute of the management decoder, [None] in the
    class. *)
Record Dot11ManagementDecoder : Type := { subtype : option Z }.

Definition Dot11ManagementDecoder_new : Dot11ManagementDecoder :=
  {| subtype := None |}.

Definition set_subtype (self : Dot11ManagementDecoder) (st : Z)
  : Dot11ManagementDecoder :=
  {| subtype := Some st |}.

(** [x is c] for a subtype [x] and a subtype constant [c]: both are
    small integers (a four-bit field), of which the interpreter keeps one
    object each, so identity is equality; [None] is no integer. *)
Definition is_subtype (x : option Z) (c : Z) : bool :=
  match x with
  | Some v => (v =? c)%Z
  | None => false
  end.

Section WirelessDecoders.

Context {hm : HeaderModel} {dm : Dot11Model}.

(** The decoders of the control frames and of the three management
    bodies build their header and return it. *)
Definition Dot11ControlFrameCTSDecoder_decode (aBuffer : bytes)
  : result frame := Ok (Frame Dot11ControlFrameCTS aBuffer None).

Definition Dot11ControlFrameACKDecoder_decode (aBuffer : bytes)
  : result frame := Ok (Frame Dot11ControlFrameACK aBuffer None).

Definition Dot11ControlFrameRTSDecoder_decode (aBuffer : bytes)
  : result frame := Ok (Frame Dot11ControlFrameRTS aBuffer None).

Definition Dot11ControlFramePSPollDecoder_decode (aBuffer : bytes)
  : result frame := Ok (Frame Dot11ControlFramePSPoll aBuffer None).

Definition Dot11ControlFrameCFEndDecoder_decode (aBuffer : bytes)
  : result frame := Ok (Frame Dot11ControlFrameCFEnd aBuffer None).

Definition Dot11ControlFrameCFEndCFACKDecoder_decode (aBuffer : bytes)
  : result frame := Ok (Frame Dot11ControlFrameCFEndCFACK aBuffer None).

Definition Dot11ManagementBeaconDecoder_decode (aBuffer : bytes)
  : result frame := Ok (Frame Dot11ManagementBeacon aBuffer None).

Definition Dot11ManagementProbeRequestDecoder_decode (aBuffer : bytes)
  : result frame := Ok (Frame Dot11ManagementProbeRequest aBuffer None).

Definition Dot11ManagementProbeResponseDecoder_decode (aBuffer : bytes)
  : result frame := Ok (Frame Dot11ManagementProbeResponse aBuffer None).

(** [DataDecoder] called from a wireless decoder. *)
Definition opaque_frame (aBuffer : bytes) : result frame :=
  n <- DataDecoder_decode aBuffer ;; Ok (Upper n).

(** [Dot11ControlDecoder.decode]: the buffer is parsed as a [Dot11]
    header again, with the flag of this decoder. *)
Definition Dot11ControlDecoder_decode (self : Dot11ControlDecoder)
  (aBuffer : bytes) : result frame :=
  let fcs := Dot11ControlDecoder_FCS self in
  let d := Dot11Frame fcs aBuffer None in
  let body := Dot11_body_string fcs aBuffer in
  let st := Some (Dot11_get_subtype fcs aBuffer) in
  packet <-
    (if is_subtype st DOT11_SUBTYPE_CONTROL_CLEAR_TO_SEND
     then Dot11ControlFrameCTSDecoder_decode body
     else if is_subtype st DOT11_SUBTYPE_CONTROL_ACKNOWLEDGMENT
     then Dot11ControlFrameACKDecoder_decode body
     else if is_subtype st DOT11_SUBTYPE_CONTROL_REQUEST_TO_SEND
     then Dot11ControlFrameRTSDecoder_decode body
     else if is_subtype st DOT11_SUBTYPE_CONTROL_POWERSAVE_POLL
     then Dot11ControlFramePSPollDecoder_decode body
     else if is_subtype st DOT11_SUBTYPE_CONTROL_CF_END
     then Dot11ControlFrameCFEndDecoder_decode body
     else if is_subtype st DOT11_SUBTYPE_CONTROL_CF_END_CF_ACK
     then Dot11ControlFrameCFEndCFACKDecoder_decode body
     else opaque_frame body) ;;
  Ok (frame_contains d packet).

Definition Dot11ManagementDecoder_decode (self : Dot11ManagementDecoder)
  (aBuffer : bytes) : result frame :=
  let p := Frame Dot11ManagementFrame aBuffer None in
  let body := Dot11ManagementFrame_body_string aBuffer in
  packet <-
    (if is_subtype (subtype self) DOT11_SUBTYPE_MANAGEMENT_BEACON
     then Dot11ManagementBeaconDecoder_decode body
     else if is_subtype (subtype self) DOT11_SUBTYPE_MANAGEMENT_PROBE_REQUEST
     then Dot11ManagementProbeRequestDecoder_decode body
     else if is_subtype (subtype self) DOT11_SUBTYPE_MANAGEMENT_PROBE_RESPONSE
     then Dot11ManagementProbeResponseDecoder_decode body
     else opaque_frame body) ;;
  Ok (frame_contains p packet).

(** The data decoder as [Dot11Decoder.decode] configures it from the
    header bits. *)
Definition configured_data_decoder (fcs : bool) (aBuffer : bytes)
  : Dot11DataDecoder :=
  let dd := Dot11DataDecoder_new in
  let dd := if Dot11_get_fromDS fcs aBuffer && Dot11_get_toDS fcs aBuffer
            then set_Addr4 dd else dd in
  let dd := if Dot11_is_QoS_frame fcs aBuffer then set_QoS dd else dd in
  let dd := if Dot11_get_protectedFrame fcs aBuffer
            then set_privateFrame dd else dd in
  dd.

Definition Dot11Decoder_decode (self : Dot11Decoder) (aBuffer : bytes)
  : result frame :=
  let fcs := Dot11Decoder_FCS self in
  let d := Dot11Frame fcs aBuffer None in
  let type := Dot11_get_type fcs aBuffer in
  let body := Dot11_body_string fcs aBuffer in
  packet <-
    (if (type =? DOT11_TYPE_CONTROL)%Z then
       Dot11ControlDecoder_decode Dot11ControlDecoder_new body
     else if (type =? DOT11_TYPE_DATA)%Z then
       n <- Dot11DataDecoder_decode (configured_data_decoder fcs aBuffer)
              body ;;
       Ok (Upper n)
     else if (type =? DOT11_TYPE_MANAGEMENT)%Z then
       Dot11ManagementDecoder_decode
         (set_subtype Dot11ManagementDecoder_new
            (Dot11_get_subtype fcs aBuffer)) body
     else opaque_frame body) ;;
  Ok (frame_contains d packet).

Definition RadioTapDecoder_decode (aBuffer : bytes) : result frame :=
  let rt := Frame RadioTap aBuffer None in
  let do11_decoder := Dot11Decoder_new in
  let flags := RadioTap_get_flags aBuffer in
  let do11_decoder :=
    match flags with
    | Some flags =>
        let fcs := Z.land flags PROPERTY_FCS_AT_END in
        Dot11Decoder_FCS_at_end do11_decoder fcs
    | None => do11_decoder
    end in
  packet <- Dot11Decoder_decode do11_decoder
              (RadioTap_get_body_as_string aBuffer) ;;
  Ok (frame_contains rt packet).

End WirelessDecoders.

(** Modelled from the spec: the [dot11] classes [RadioTap], [Dot11] and
    [Dot11ManagementFrame] and the constants of [Dot11Types] are not part
    of this module. The spec asks of them the frame type and subtype, the
    header bits for the data-frame flags, the FCS flag of radiotap and
    the body bytes; this instance reads them at the standard offsets of
    the radiotap and 802.11 headers. *)
Definition wire_dot11 : Dot11Model := {|
  DOT11_TYPE_CONTROL := 1;
  DOT11_TYPE_DATA := 2;
  DOT11_TYPE_MANAGEMENT := 0;
  DOT11_SUBTYPE_CONTROL_CLEAR_TO_SEND := 12;
  DOT11_SUBTYPE_CONTROL_ACKNOWLEDGMENT := 13;
  DOT11_SUBTYPE_CONTROL_REQUEST_TO_SEND := 11;
  DOT11_SUBTYPE_CONTROL_POWERSAVE_POLL := 10;
  DOT11_SUBTYPE_CONTROL_CF_END := 14;
  DOT11_SUBTYPE_CONTROL_CF_END_CF_ACK := 15;
  DOT11_SUBTYPE_MANAGEMENT_BEACON := 8;
  DOT11_SUBTYPE_MANAGEMENT_PROBE_REQUEST := 4;
  DOT11_SUBTYPE_MANAGEMENT_PROBE_RESPONSE := 5;
  PROPERTY_FCS_AT_END := 0x10;
  RadioTap_get_flags := fun b =>
    if Z.testbit (byte_at b 4) 1
    then Some (byte_at b (if Z.testbit (byte_at b 4) 0 then 16 else 8))
    else None;
  RadioTap_get_body_as_string := fun b =>
    skipn (Z.to_nat (byte_at b 2 + 256 * byte_at b 3)) b;
  Dot11_get_type := fun _ b => Z.land (Z.shiftr (byte_at b 0) 2) 3;
  Dot11_get_subtype := fun _ b => Z.land (Z.shiftr (byte_at b 0) 4) 15;
  Dot11_get_fromDS := fun _ b => Z.testbit (byte_at b 1) 1;
  Dot11_get_toDS := fun _ b => Z.testbit (byte_at b 1) 0;
  Dot11_is_QoS_frame := fun _ b =>
    (Z.land (Z.shiftr (byte_at b 0) 2) 3 =? 2)%Z
    && Z.testbit (byte_at b 0) 7;
  Dot11_get_protectedFrame := fun _ b => Z.testbit (byte_at b 1) 6;
  Dot11_body_string := fun fcs b =>
    let rest := skipn 2 b in
    firstn (length rest - (if fcs then 4 else 0)) rest;
  Dot11ManagementFrame_body_string := fun b => skipn 22 b
|}.

(** A radiotap header of 9 bytes whose flags byte has the FCS bit clear,
    then a protected data frame (frame control [08 40]) that continues
    with [sample_protected_ccmp]. *)
Definition sample_radiotap_protected : bytes :=
  [x00; x00; x09; x00; x02; x00; x00; x00; x00; x08; x40]
  ++ sample_protected_ccmp.

(** A clear-to-send control frame behind a radiotap header without a
    flags field. *)
Definition sample_radiotap_cts : bytes :=
  [x00; x00; x08; x00; x00; x00; x00; x00;
   xc4; x00; x00; x00; x01; x02; x03; x04; x05; x06; xf1; xf2; xf3; xf4].

(** ** Shapes of decoded chains *)

(** [x] is a run of consecutive bytes of [b]. *)
Definition infix_of (x b : bytes) : Prop :=
  exists pre post, b = pre ++ x ++ post.

(** Down the chain, the bytes of each child are a run of consecutive
    bytes of its parent. *)
Fixpoint nested (n : node) : Prop :=
  match n with
  | Node _ r (Some c) => infix_of (raw c) r /\ nested c
  | Node _ _ None => True
  end.

(** The last node of the chain. *)
Fixpoint terminal (n : node) : node :=
  match n with
  | Node _ _ (Some c) => terminal c
  | Node _ _ None => n
  end.

(** The opaque class is met at the end of the chain only. *)
Fixpoint data_only_last (n : node) : Prop :=
  match n with
  | Node k _ (Some c) => k <> Data /\ data_only_last c
  | Node k _ None => k = Data
  end.

(** An IP header of 20 bytes that announces a total length of 8. *)
Definition sample_ip_short_len : bytes :=
  [x45; x00; x00; x08; x00; x01; x00; x00; x40; x11; x00; x00;
   x0a; x00; x00; x01; x0a; x00; x00; x02;
   x04; xd2; x00; x35; x00; x08; x00; x00].

(** A chain of at most [d] nodes that ends at its only opaque node. *)
Definition loosely (d : nat) (n : node) : Prop :=
  data_only_last n /\ length (chain n) <= d.

(** Such a chain over the buffer [b], each child inside its parent. *)
Definition wired (d : nat) (b : bytes) (n : node) : Prop :=
  raw n = b /\ nested n /\ loosely d n.

(** A decode that returns a node of class [k] over [b] with such a
    chain. *)
Definition decodes (r : result node) (k : kind) (d : nat) (b : bytes)
  : Prop :=
  exists n, r = Ok n /\ cls n = k /\ wired d b n.

Definition decodes_loosely (r : result node) (k : kind) (d : nat)
  (b : bytes) : Prop :=
  exists n, r = Ok n /\ cls n = k /\ raw n = b /\ loosely d n.

(** A SNAP header with OUI 0 and the IP ethertype before the datagram of
    [sample_eth_tcp], and a cooked-capture header before the same. *)
Definition sample_snap_ip : bytes :=
  [x00; x00; x00; x08; x00] ++ skipn 14 sample_eth_tcp.

Definition sample_sll_ip : bytes :=
  repeat x00 14 ++ [x08; x00] ++ skipn 14 sample_eth_tcp.

(** A beacon (frame control [80 00]) of 2 + 22 header bytes, three bytes
    of body and four bytes of FCS. *)
Definition sample_beacon : bytes :=
  [x80; x00] ++ repeat x00 22 ++ [x01; x02; x03; xf1; xf2; xf3; xf4].

(** * Properties *)

(** ** Slices and nodes *)

Lemma nth_error_slice (off stop : nat) (b : bytes) (k : nat) :
  nth_error (slice off stop b) k =
  if off + k <? stop then nth_error b (off + k) else None.
Proof.
  unfold slice.
  rewrite nth_error_firstn, nth_error_skipn.
  destruct (Nat.ltb_spec k (stop - off)), (Nat.ltb_spec (off + k) stop);
    try reflexivity; lia.
Qed.

Lemma length_slice (off stop : nat) (b : bytes) :
  length (slice off stop b) <= stop - off.
Proof. unfold slice. apply firstn_le_length. Qed.

Lemma node_chain_ind (P : node -> Prop) :
  (forall k r, P (Node k r None)) ->
  (forall k r c, P c -> P (Node k r (Some c))) ->
  forall n, P n.
Proof.
  intros Hleaf Hlink.
  fix IH 1.
  intros [k r [c|]].
  - apply Hlink, IH.
  - apply Hleaf.
Qed.

Lemma kind_eqb_eq (a b : kind) : kind_eqb a b = true <-> a = b.
Proof.
  unfold kind_eqb. destruct (kind_eq_dec a b); split; congruence.
Qed.

Lemma kind_eqb_neq (a b : kind) : kind_eqb a b = false <-> a <> b.
Proof.
  unfold kind_eqb. destruct (kind_eq_dec a b); split; congruence.
Qed.

(** ** Lookup along the chain *)

Lemma get_protocol_from_spec (aprotocol : kind) (n : node) :
  match get_protocol_from n aprotocol with
  | Some m =>
      exists pre post,
        chain n = pre ++ m :: post /\ cls m = aprotocol /\
        Forall (fun x => cls x <> aprotocol) pre
  | None => Forall (fun x => cls x <> aprotocol) (chain n)
  end.
Proof.
  induction n as [k r | k r c IH] using node_chain_ind; simpl.
  - destruct (kind_eqb k aprotocol) eqn:E.
    + exists [], []. apply kind_eqb_eq in E. auto.
    + apply kind_eqb_neq in E. constructor; auto.
  - destruct (kind_eqb k aprotocol) eqn:E.
    + exists [], (chain c). apply kind_eqb_eq in E. auto.
    + apply kind_eqb_neq in E.
      destruct (get_protocol_from c aprotocol) as [m|].
      * destruct IH as (pre & post & Hc & Hm & Hpre).
        exists (Node k r (Some c) :: pre), post.
        rewrite Hc. repeat split; auto.
      * constructor; auto.
Qed.

(** C8. After a decode recorded the root of a chain, [get_protocol] walks
    the child links from that root and returns the first node whose class
    is the requested one; when no node of the chain has that class it
    returns None. On a chain Ethernet, IP, TCP, Data it returns the TCP
    node for TCP and None for ARP. *)
Theorem get_protocol_first_of_kind
  (self : Decoder) (root : node) (aprotocol : kind) :
  match get_protocol (set_decoded_protocol self root) aprotocol with
  | Some m =>
      exists pre post,
        chain root = pre ++ m :: post /\ cls m = aprotocol /\
        Forall (fun x => cls x <> aprotocol) pre
  | None => Forall (fun x => cls x <> aprotocol) (chain root)
  end /\
  (forall e i t d : bytes,
     let tcp := Node TCP t (Some (Node Data d None)) in
     let eth := Node Ethernet e (Some (Node IP i (Some tcp))) in
     get_protocol (set_decoded_protocol self eth) TCP = Some tcp /\
     get_protocol (set_decoded_protocol self eth) ARP = None).
Proof.
  split.
  - unfold get_protocol, set_decoded_protocol; simpl.
    apply get_protocol_from_spec.
  - intros e i t d. split; reflexivity.
Qed.

Lemma get_protocol_before_decode (aprotocol : kind) :
  get_protocol Decoder_new aprotocol = None.
Proof. reflexivity. Qed.

Section DecoderProperties.

Context {hm : HeaderModel}.

(** ** The chain built from an Ethernet frame *)

Lemma EthDecoder_decode_tcp_chain (aBuffer : bytes) :
  let ip := slice_from (get_header_size Ethernet aBuffer) aBuffer in
  let seg := slice (get_header_size IP ip) (get_ip_len ip) ip in
  get_ether_type Ethernet aBuffer = IP_ethertype ->
  get_ip_p ip <> UDP_protocol ->
  get_ip_p ip = TCP_protocol ->
  EthDecoder_decode aBuffer =
  Ok (Node Ethernet aBuffer (Some (Node IP ip (Some (Node TCP seg
        (Some (Node Data (slice_from (get_header_size TCP seg) seg)
           None))))))).
Proof.
  intros ip seg Het Hnudp Htcp.
  unfold EthDecoder_decode, IPDecoder_decode.
  rewrite Het, Z.eqb_refl. fold ip.
  apply Z.eqb_neq in Hnudp. rewrite Hnudp.
  rewrite Htcp, Z.eqb_refl. reflexivity.
Qed.

(** ** IP *)

(** C2. The slice that the IP decoder hands to the child decoder starts
    at the end of the IP header and is cut at the declared total length:
    it holds at most [ip_len - header_size] bytes, its k-th byte is byte
    [header_size + k] of the buffer, and no byte of the buffer at or
    beyond index [ip_len] is in it. *)
Theorem IPDecoder_child_within_ip_len (aBuffer : bytes) :
  let off := get_header_size IP aBuffer in
  let stop := get_ip_len aBuffer in
  exists packet,
    IPDecoder_decode aBuffer = Ok (Node IP aBuffer (Some packet)) /\
    raw packet = firstn (stop - off) (skipn off aBuffer) /\
    length (raw packet) <= stop - off /\
    forall k, nth_error (raw packet) k =
              if off + k <? stop then nth_error aBuffer (off + k) else None.
Proof.
  intros off stop.
  assert (Hs : forall k,
    nth_error (slice off stop aBuffer) k =
    if off + k <? stop then nth_error aBuffer (off + k) else None)
    by (intro; apply nth_error_slice).
  pose proof (length_slice off stop aBuffer) as Hl.
  unfold IPDecoder_decode. fold off stop.
  destruct (get_ip_p aBuffer =? UDP_protocol)%Z;
    [|destruct (get_ip_p aBuffer =? TCP_protocol)%Z;
      [|destruct (get_ip_p aBuffer =? ICMP_protocol)%Z]].
  - eexists; split; [reflexivity|]. simpl. auto.
  - eexists; split; [reflexivity|]. simpl. auto.
  - unfold ICMPDecoder_decode, IPDecoderForICMP_decode.
    destruct (get_icmp_type _ =? ICMP_UNREACH)%Z;
      [destruct (get_ip_p _ =? UDP_protocol)%Z|];
      (eexists; split; [reflexivity|]; simpl; auto).
  - eexists; split; [reflexivity|]. simpl. auto.
Qed.

(** ** ICMP *)

(** C7. For an ICMP message of type destination unreachable the body is
    decoded by [IPDecoderForICMP]; the decode succeeds, and the IP node
    has a UDP child when the embedded protocol number is UDP and an
    opaque child, holding everything after the embedded IP header, for
    every other protocol number. *)
Theorem ICMPDecoder_unreach_lenient (aBuffer : bytes) :
  get_icmp_type aBuffer = ICMP_UNREACH ->
  let body := slice_from (get_header_size ICMP aBuffer) aBuffer in
  let rest := slice_from (get_header_size IP body) body in
  exists ip packet,
    ICMPDecoder_decode aBuffer = Ok (Node ICMP aBuffer (Some ip)) /\
    IPDecoderForICMP_decode body = Ok ip /\
    ip = Node IP body (Some packet) /\
    (if (get_ip_p body =? UDP_protocol)%Z
     then packet =
          Node UDP rest
            (Some (Node Data (slice_from (get_header_size UDP rest) rest)
               None))
     else packet = Node Data rest None).
Proof.
  intros Hty body rest.
  unfold ICMPDecoder_decode. rewrite Hty, Z.eqb_refl. fold body.
  unfold IPDecoderForICMP_decode. fold rest.
  destruct (get_ip_p body =? UDP_protocol)%Z;
    do 2 eexists; repeat split; reflexivity.
Qed.

(** ** LLC *)

Lemma LLCDecoder_decode_snap (aBuffer : bytes) :
  get_DSAP aBuffer = SAPTypes_SNAP ->
  get_SSAP aBuffer = SAPTypes_SNAP ->
  get_control aBuffer = DLC_UNNUMBERED_FRAMES ->
  exists s,
    SNAPDecoder_decode (body_string LLC aBuffer) = Ok s /\
    cls s = SNAP /\
    LLCDecoder_decode aBuffer = Ok (Node LLC aBuffer (Some s)).
Proof.
  intros Hd Hs Hc. unfold LLCDecoder_decode.
  rewrite Hd, Hs, Hc, !Z.eqb_refl.
  unfold body_of; simpl.
  unfold SNAPDecoder_decode, IPDecoder_decode, ICMPDecoder_decode,
    IPDecoderForICMP_decode.
  repeat match goal with
         | |- context [if ?c then _ else _] => destruct c
         end; eexists; repeat split; reflexivity.
Qed.

Lemma LLCDecoder_decode_other_dsap (aBuffer : bytes) :
  get_DSAP aBuffer <> SAPTypes_SNAP ->
  LLCDecoder_decode aBuffer =
  Ok (Node LLC aBuffer (Some (Node Data (body_string LLC aBuffer) None))).
Proof.
  intros Hd. unfold LLCDecoder_decode.
  apply Z.eqb_neq in Hd. rewrite Hd. reflexivity.
Qed.

Lemma LLCDecoder_decode_unbound (aBuffer : bytes) :
  get_DSAP aBuffer = SAPTypes_SNAP ->
  get_SSAP aBuffer <> SAPTypes_SNAP \/
  get_control aBuffer <> DLC_UNNUMBERED_FRAMES ->
  LLCDecoder_decode aBuffer = Raise (UnboundLocalError "packet").
Proof.
  intros Hd Hor. unfold LLCDecoder_decode.
  rewrite Hd, Z.eqb_refl.
  destruct (Z.eqb_spec (get_SSAP aBuffer) SAPTypes_SNAP) as [Hs|Hs];
    [|reflexivity].
  destruct (Z.eqb_spec (get_control aBuffer) DLC_UNNUMBERED_FRAMES);
    [|reflexivity].
  destruct Hor; contradiction.
Qed.

(** ** Confidentiality decoders *)

Lemma Dot11WEPDecoder_decode_None (aBuffer : bytes) (key : option bytes) :
  Dot11WEPDecoder_decode aBuffer key = Ok None.
Proof.
  unfold Dot11WEPDecoder_decode.
  destruct (is_False (is_WEP aBuffer)); reflexivity.
Qed.

Lemma Dot11WPADecoder_decode_no_key (aBuffer : bytes) :
  Dot11WPADecoder_decode aBuffer None =
  if is_False (is_WPA aBuffer) then Ok None
  else Ok (Some (sealed Dot11WPA aBuffer)).
Proof.
  unfold Dot11WPADecoder_decode.
  destruct (is_False (is_WPA aBuffer)); reflexivity.
Qed.

Lemma Dot11WPA2Decoder_decode_no_key (aBuffer : bytes) :
  Dot11WPA2Decoder_decode aBuffer None =
  if is_False (is_WPA2 aBuffer) then Ok None
  else Ok (Some (sealed Dot11WPA2 aBuffer)).
Proof.
  unfold Dot11WPA2Decoder_decode.
  destruct (is_False (is_WPA2 aBuffer)); reflexivity.
Qed.

Lemma bind_Some_not_None (A : Type) (r : result A) (f : A -> node) :
  (x <- r ;; Ok (Some (f x))) <> Ok None.
Proof. destruct r; simpl; congruence. Qed.

(** The WPA and WPA2 decoders return None exactly when the check
    returned the object [False], whatever the key. *)
Lemma WPA_decoders_None_iff_False (aBuffer : bytes) :
  (forall key,
     Dot11WPADecoder_decode aBuffer key = Ok None <->
     is_False (is_WPA aBuffer) = true) /\
  (forall key,
     Dot11WPA2Decoder_decode aBuffer key = Ok None <->
     is_False (is_WPA2 aBuffer) = true).
Proof.
  split; intros key;
    unfold Dot11WPADecoder_decode, Dot11WPA2Decoder_decode;
    match goal with
    | |- context [is_False ?c] => destruct (is_False c) eqn:E
    end; (split; [|reflexivity || discriminate]); try reflexivity;
    intros H; exfalso; revert H; apply bind_Some_not_None.
Qed.

(** ** Protected data frames *)

Lemma Dot11DataDecoder_decode_private (self : Dot11DataDecoder)
  (aBuffer : bytes) :
  Private self = true ->
  let body := body_string (data_frame_class self) aBuffer in
  Dot11DataDecoder_decode self aBuffer =
  Ok (Node (data_frame_class self) aBuffer
        (Some (if is_False (is_WPA body) then
                 if is_False (is_WPA2 body) then Node Data body None
                 else sealed Dot11WPA2 body
               else sealed Dot11WPA body))).
Proof.
  intros Hp body. unfold Dot11DataDecoder_decode. rewrite Hp. simpl.
  unfold body_of. simpl. fold body.
  rewrite Dot11WEPDecoder_decode_None. simpl.
  rewrite Dot11WPADecoder_decode_no_key.
  destruct (is_False (is_WPA body)); [|reflexivity]. simpl.
  rewrite Dot11WPA2Decoder_decode_no_key.
  destruct (is_False (is_WPA2 body)); reflexivity.
Qed.


End DecoderProperties.

(** C10. The chain of a protected data frame calls the three scheme
    decoders with the key left at None: the decode does not depend on
    the decryption accessors of the header classes, and the child of the
    frame is the opaque node over its body or a WEP, WPA or WPA2 node
    whose own child is the opaque node over the body of that header,
    still encrypted. *)
Theorem Dot11DataDecoder_chain_without_key
  (hm : HeaderModel) (wep wpa wpa2 : bytes -> result bytes)
  (qos addr4 : bool) (aBuffer : bytes) :
  let self := {| QoS := qos; Addr4 := addr4; Private := true |} in
  let body := @body_string hm (data_frame_class self) aBuffer in
  @Dot11DataDecoder_decode (with_decrypt hm wep wpa wpa2) self aBuffer =
  @Dot11DataDecoder_decode hm self aBuffer /\
  exists packet,
    @Dot11DataDecoder_decode hm self aBuffer =
      Ok (Node (data_frame_class self) aBuffer (Some packet)) /\
    (packet = Node Data body None \/
     exists k,
       In k [Dot11WEP; Dot11WPA; Dot11WPA2] /\
       packet = Node k body (Some (Node Data (@body_string hm k body) None))).
Proof.
  intros self body. split.
  - rewrite !Dot11DataDecoder_decode_private by reflexivity. reflexivity.
  - eexists. split.
    + apply Dot11DataDecoder_decode_private. reflexivity.
    + fold body. unfold sealed.
      destruct (is_False (is_WPA body));
        [|right; exists Dot11WPA; simpl; auto].
      destruct (is_False (is_WPA2 body));
        [left; reflexivity|right; exists Dot11WPA2; simpl; auto].
Qed.

(** ** RC4: the state stays a list of 256 byte values *)

Lemma ord_range (c : byte) : byte_range (ord c).
Proof.
  unfold byte_range, ord. pose proof (Byte.to_N_bounded c). lia.
Qed.

Lemma ord_inj (a b : byte) : ord a = ord b -> a = b.
Proof.
  unfold ord. intros H. apply N2Z.inj in H.
  pose proof (Byte.of_to_N a) as Ha. rewrite H, Byte.of_to_N in Ha.
  congruence.
Qed.

Lemma map_ord_inj (a b : bytes) : map ord a = map ord b -> a = b.
Proof.
  revert b. induction a as [|x a IH]; intros [|y b] H; simpl in H;
    try discriminate; [reflexivity|].
  injection H as Hx Hab. f_equal; [apply ord_inj|apply IH]; assumption.
Qed.

Lemma chr_ord (c : byte) : chr (ord c) = Some c.
Proof.
  unfold chr. pose proof (ord_range c) as [H0 H1].
  destruct (Z.leb_spec 0 (ord c)); [|lia].
  destruct (Z.ltb_spec (ord c) 256); [|lia]. simpl.
  unfold ord. rewrite N2Z.id. apply Byte.of_to_N.
Qed.

Lemma chr_in_range (z : Z) :
  byte_range z -> exists d, chr z = Some d /\ ord d = z.
Proof.
  intros [H0 H1]. unfold chr.
  destruct (Z.leb_spec 0 z); [|lia].
  destruct (Z.ltb_spec z 256); [|lia]. simpl.
  destruct (Byte.of_N (Z.to_N z)) as [d|] eqn:E.
  - exists d. split; [reflexivity|].
    apply Byte.to_of_N in E. unfold ord. rewrite E. lia.
  - apply Byte.of_N_None_iff in E. lia.
Qed.

Lemma lxor_byte_range (a b : Z) :
  byte_range a -> byte_range b -> byte_range (Z.lxor a b).
Proof.
  unfold byte_range. intros [Ha0 Ha1] [Hb0 Hb1].
  assert (H0 : (0 <= Z.lxor a b)%Z) by (apply Z.lxor_nonneg; tauto).
  split; [assumption|].
  destruct (Z.eq_dec (Z.lxor a b) 0) as [E|E]; [lia|].
  change 256%Z with (2 ^ 8)%Z.
  apply Z.log2_lt_pow2; [lia|].
  pose proof (Z.log2_lxor a b Ha0 Hb0) as Hl.
  assert (Hla : (Z.log2 a < 8)%Z).
  { destruct (Z.eq_dec a 0) as [->|]; [simpl; lia|].
    apply Z.log2_lt_pow2; [lia|]. simpl; lia. }
  assert (Hlb : (Z.log2 b < 8)%Z).
  { destruct (Z.eq_dec b 0) as [->|]; [simpl; lia|].
    apply Z.log2_lt_pow2; [lia|]. simpl; lia. }
  lia.
Qed.

Lemma item_range (s : list Z) (i : Z) :
  state_ok s -> byte_range (item s i).
Proof.
  intros Hs. unfold item.
  destruct (nth_in_or_default (Z.to_nat i) s 0%Z) as [Hin|Hd].
  - unfold state_ok in Hs. rewrite Forall_forall in Hs. auto.
  - rewrite Hd. unfold byte_range; lia.
Qed.

Lemma set_nat_ok (s : list Z) (i : nat) (v : Z) :
  state_ok s -> byte_range v -> state_ok (set_nat s i v).
Proof.
  unfold state_ok. intros Hs Hv. revert i.
  induction Hs as [|x s Hx Hs IH]; intros [|i]; simpl; auto.
Qed.

Lemma set_nat_length (s : list Z) (i : nat) (v : Z) :
  length (set_nat s i v) = length s.
Proof.
  revert i. induction s as [|x s IH]; intros [|i]; simpl; auto.
Qed.

Lemma SSWAP_ok (s : list Z) (i j : Z) : state_ok s -> state_ok (SSWAP s i j).
Proof.
  intros Hs. unfold SSWAP, set_item. simpl.
  apply set_nat_ok; [apply set_nat_ok|]; auto using item_range.
Qed.

Lemma SSWAP_length (s : list Z) (i j : Z) : length (SSWAP s i j) = length s.
Proof.
  unfold SSWAP, set_item. now rewrite !set_nat_length.
Qed.

Lemma range256_ok : state_ok range256.
Proof.
  unfold state_ok, range256. apply Forall_forall. intros x Hx.
  apply in_map_iff in Hx. destruct Hx as (n & <- & Hn).
  apply in_seq in Hn. unfold byte_range. lia.
Qed.

Lemma ksa_fold_ok (key : bytes) (l : list Z) (st : Z * list Z) :
  state_ok (snd st) ->
  state_ok (snd (fold_left (ksa_step key) l st)) /\
  length (snd (fold_left (ksa_step key) l st)) = length (snd st).
Proof.
  revert st. induction l as [|i l IH]; intros st Hs; [simpl; auto|].
  cbn [fold_left].
  destruct (IH (ksa_step key st i)) as [Hok Hlen].
  - destruct st as [j s]. simpl in *. now apply SSWAP_ok.
  - split; [exact Hok|]. rewrite Hlen.
    destruct st as [j s]. simpl. apply SSWAP_length.
Qed.

Lemma rc4_key_schedule_ok (key : bytes) :
  key <> [] ->
  exists s, rc4_key_schedule key = Ok s /\ state_ok s /\ length s = 256.
Proof.
  intros Hk. destruct key as [|k key]; [congruence|].
  unfold rc4_key_schedule. eexists. split; [reflexivity|].
  destruct (ksa_fold_ok (k :: key) range256 (0%Z, range256)) as [Hok Hlen].
  - exact range256_ok.
  - split; [exact Hok|]. rewrite Hlen. reflexivity.
Qed.

Create HintDb rc4.
#[local] Hint Resolve ord_range item_range SSWAP_ok lxor_byte_range
  range256_ok : rc4.

(** The indices of the two loops: a masked value, or a member of
    [range(256)], is a valid index of a list of 256 entries. *)
Lemma masked_index_in_range (x : Z) : byte_range (Z.land x 255).
Proof.
  unfold byte_range. change 255%Z with (Z.ones 8).
  rewrite Z.land_ones by lia.
  pose proof (Z.mod_pos_bound x (2 ^ 8) eq_refl) as H.
  change (2 ^ 8)%Z with 256%Z in *. lia.
Qed.

Lemma range256_index_in_range (i : Z) : In i range256 -> byte_range i.
Proof.
  pose proof range256_ok as H. unfold state_ok in H.
  rewrite Forall_forall in H. apply H.
Qed.

Lemma keystream_step_ok (st : Z * Z * list Z) :
  state_ok (snd st) ->
  state_ok (snd (fst (keystream_step st))) /\
  byte_range (snd (keystream_step st)).
Proof.
  destruct st as [[i j] s]. simpl. intros Hs. split; auto with rc4.
Qed.

Lemma keystream_step_length (st : Z * Z * list Z) :
  length (snd (fst (keystream_step st))) = length (snd st).
Proof.
  destruct st as [[i j] s]. simpl. apply SSWAP_length.
Qed.

Lemma keystream_length (st : Z * Z * list Z) (n : nat) :
  length (keystream st n) = n.
Proof.
  revert st. induction n as [|n IH]; intros st; simpl; [reflexivity|].
  destruct (keystream_step st) as [st' k]. simpl. now rewrite IH.
Qed.

(** ** RC4: the second loop xors the data with the keystream *)

Lemma rc4_fold_spec (data : bytes) (ijs : Z * Z * list Z) (out : bytes) :
  state_ok (snd ijs) ->
  exists ijs' o,
    fold_left rc4_step data (Ok (ijs, out)) = Ok (ijs', out ++ o) /\
    map ord o = xor_with (keystream ijs (length data)) (map ord data).
Proof.
  revert ijs out. induction data as [|c data IH]; intros ijs out Hs.
  - exists ijs, []. rewrite app_nil_r. split; reflexivity.
  - destruct (keystream_step_ok ijs Hs) as [Hs' Hk].
    cbn [fold_left length keystream].
    destruct (keystream_step ijs) as [ijs1 k] eqn:Ek. simpl in Hs', Hk.
    destruct (chr_in_range (lxor_byte_range (ord_range c) Hk))
      as (d & Hd & Hord).
    assert (Hstep : rc4_step (Ok (ijs, out)) c = Ok (ijs1, out ++ [d])).
    { unfold rc4_step. simpl. rewrite Ek, Hd. reflexivity. }
    rewrite Hstep.
    destruct (IH ijs1 (out ++ [d]) Hs') as (ijs' & o & Hfold & Hmap).
    exists ijs', (d :: o). split.
    + rewrite <- app_assoc in Hfold. exact Hfold.
    + simpl. unfold xor_with in *. simpl. rewrite Hord, Hmap. reflexivity.
Qed.

Lemma rc4_apply_spec (s : list Z) (data : bytes) :
  state_ok s ->
  exists out,
    rc4_apply s data = Ok out /\
    map ord out = xor_with (keystream (0%Z, 0%Z, s) (length data))
                    (map ord data).
Proof.
  intros Hs. unfold rc4_apply.
  destruct (rc4_fold_spec data (0%Z, 0%Z, s) [] Hs)
    as (ijs' & o & Hfold & Hmap).
  exists o. split; [|exact Hmap].
  unfold bytes in *. rewrite Hfold. reflexivity.
Qed.

Lemma xor_with_length (ks d : list Z) :
  length ks = length d -> length (xor_with ks d) = length d.
Proof.
  intros H. unfold xor_with.
  rewrite length_map, length_combine. lia.
Qed.

Lemma xor_with_twice (ks d : list Z) :
  length ks = length d -> xor_with ks (xor_with ks d) = d.
Proof.
  revert ks. induction d as [|x d IH]; intros [|k ks] H; simpl in H;
    try discriminate; [reflexivity|].
  unfold xor_with in *. simpl.
  rewrite Z.lxor_assoc, Z.lxor_nilpotent, Z.lxor_0_r.
  f_equal. apply IH. lia.
Qed.

Lemma rc4_apply_involutive (s : list Z) (data : bytes) :
  state_ok s ->
  exists out,
    rc4_apply s data = Ok out /\
    length out = length data /\
    map ord out = xor_with (keystream (0%Z, 0%Z, s) (length data))
                    (map ord data) /\
    rc4_apply s out = Ok data.
Proof.
  intros Hs.
  destruct (rc4_apply_spec data Hs) as (out & Hrun & Hmap).
  assert (Hlen : length out = length data).
  { rewrite <- (length_map ord out), Hmap, xor_with_length;
      rewrite ?length_map, ?keystream_length; reflexivity. }
  exists out. repeat split; try assumption.
  destruct (rc4_apply_spec out Hs) as (back & Hrun' & Hmap').
  rewrite Hrun'. f_equal. apply map_ord_inj.
  rewrite Hmap', Hlen, Hmap.
  apply xor_with_twice. rewrite keystream_length, length_map. reflexivity.
Qed.

(** ** [decrypt_data] *)

(** C9. On a body of fewer than 8 bytes [decrypt_data] returns the body
    as it is, whatever the IV and the key: the key scheduling, which
    raises on an empty key, and the keystream loop are not run. *)
Theorem decrypt_data_short_body (body_string get_iv key_string : bytes) :
  length body_string < 8 ->
  decrypt_data body_string get_iv key_string = Ok (PyStr body_string).
Proof.
  intros H. unfold decrypt_data.
  destruct (Nat.ltb_spec (length body_string) 8); [reflexivity|lia].
Qed.

Lemma decrypt_data_short_body_witness :
  length (firstn 7 sample_wep_body) < 8 /\
  decrypt_data (firstn 7 sample_wep_body) [] [] =
  Ok (PyStr (firstn 7 sample_wep_body)).
Proof.
  split; [simpl; lia|].
  apply (@decrypt_data_short_body (firstn 7 sample_wep_body) [] []).
  simpl; lia.
Defined.

Lemma decrypt_data_long_body_empty_key (body_string : bytes) :
  8 <= length body_string ->
  decrypt_data body_string [] [] = Raise ZeroDivisionError.
Proof.
  intros H. unfold decrypt_data.
  destruct (Nat.ltb_spec (length body_string) 8); [lia|reflexivity].
Qed.

(** From 8 bytes on, the call ends at the name [data]. *)
Lemma decrypt_data_long_body (body_string get_iv key_string : bytes) :
  8 <= length body_string ->
  get_iv ++ key_string <> [] ->
  decrypt_data body_string get_iv key_string = Raise (NameError "data").
Proof.
  intros H Hk. unfold decrypt_data.
  destruct (Nat.ltb_spec (length body_string) 8); [lia|].
  destruct (rc4_key_schedule_ok Hk) as (s & Hs & _).
  rewrite Hs. reflexivity.
Qed.

(** Whatever [decrypt_data] returns is the body it was given, and it
    returns only for bodies of fewer than 8 bytes. *)
Lemma decrypt_data_returns_body_only
  (body_string get_iv key_string : bytes) (v : pyval) :
  decrypt_data body_string get_iv key_string = Ok v ->
  v = PyStr body_string /\ length body_string < 8.
Proof.
  unfold decrypt_data.
  destruct (Nat.ltb_spec (length body_string) 8) as [Hlt|Hge].
  - intros H. injection H as <-. auto.
  - destruct (rc4_key_schedule (get_iv ++ key_string)); simpl; discriminate.
Qed.

(** C4. The code on a body of eight bytes with a three-byte IV and a
    key: after the key scheduling the loop header reads the name [data],
    which nothing binds, and the call raises NameError instead of
    returning the body. *)
Theorem decrypt_data_sample_raises :
  decrypt_data sample_wep_body sample_iv sample_key =
  Raise (NameError "data").
Proof. vm_compute. reflexivity. Qed.

(** C5. The code on a body of nine bytes with a three-byte IV and a
    key: the key scheduling over the IV followed by the key succeeds,
    but the loop that would apply the keystream reads the name [data],
    which nothing binds, and the call raises NameError: no byte is
    xored, and neither a ciphertext nor a plaintext comes back. *)
Theorem decrypt_data_sample_plaintext_raises :
  (exists s, rc4_key_schedule (sample_iv ++ sample_key) = Ok s) /\
  decrypt_data sample_plaintext sample_iv sample_key =
  Raise (NameError "data").
Proof. split; [eexists|]; vm_compute; reflexivity. Qed.

(** ** The decoders on the sample frames *)

Lemma ICMPDecoder_unreach_lenient_witness :
  @get_icmp_type wire_model sample_icmp_unreach = @ICMP_UNREACH wire_model /\
  exists ip packet,
    @ICMPDecoder_decode wire_model sample_icmp_unreach =
      Ok (Node ICMP sample_icmp_unreach (Some ip)) /\
    @IPDecoderForICMP_decode wire_model (skipn 8 sample_icmp_unreach) =
      Ok ip /\
    ip = Node IP (skipn 8 sample_icmp_unreach) (Some packet) /\
    packet =
      Node UDP (skipn 28 sample_icmp_unreach)
        (Some (Node Data (skipn 36 sample_icmp_unreach) None)).
Proof.
  split; [reflexivity|].
  exact (@ICMPDecoder_unreach_lenient wire_model sample_icmp_unreach
           eq_refl).
Defined.

(** The two IP decoders differ on an embedded TCP segment: the standard
    one builds a TCP node, the one for ICMP leaves the bytes opaque. *)
Example IPDecoderForICMP_leaves_tcp_opaque :
  let ip := firstn 44 (skipn 14 sample_eth_tcp) in
  (exists d,
     @IPDecoder_decode wire_model ip =
     Ok (Node IP ip (Some (Node TCP (skipn 20 ip) (Some d))))) /\
  @IPDecoderForICMP_decode wire_model ip =
  Ok (Node IP ip (Some (Node Data (skipn 20 ip) None))).
Proof. split; [eexists|]; vm_compute; reflexivity. Qed.

(** The padding after the 44 bytes of the datagram is not in the view of
    the TCP node. *)
Example IPDecoder_drops_padding :
  exists tcp d,
    @IPDecoder_decode wire_model (skipn 14 sample_eth_tcp) =
      Ok (Node IP (skipn 14 sample_eth_tcp) (Some tcp)) /\
    tcp = Node TCP (firstn 24 (skipn 34 sample_eth_tcp)) (Some d) /\
    d = Node Data [x64; x61; x74; x61] None.
Proof. do 2 eexists. repeat split; vm_compute; reflexivity. Qed.

Example get_protocol_on_sample :
  exists eth ip tcp d,
    @EthDecoder_decode wire_model sample_eth_tcp = Ok eth /\
    chain eth = [eth; ip; tcp; d] /\
    map cls (chain eth) = [Ethernet; IP; TCP; Data] /\
    get_protocol (set_decoded_protocol Decoder_new eth) TCP = Some tcp /\
    get_protocol (set_decoded_protocol Decoder_new eth) ARP = None.
Proof. do 4 eexists. repeat split; vm_compute; reflexivity. Qed.

(** C3. The code on an LLC header whose DSAP is SNAP and whose SSAP is
    not: no branch binds [packet], and [d.contains(packet)] raises
    UnboundLocalError instead of attaching an opaque node. *)
Theorem LLCDecoder_decode_sample_raises :
  @get_DSAP wire_model sample_llc_dsap_only = @SAPTypes_SNAP wire_model /\
  @get_SSAP wire_model sample_llc_dsap_only <> @SAPTypes_SNAP wire_model /\
  @LLCDecoder_decode wire_model sample_llc_dsap_only =
  Raise (UnboundLocalError "packet").
Proof. repeat split. vm_compute. discriminate. Qed.

(** C6. The code on a WEP header (ExtIV bit clear): the signature check
    returns True, and the method, which ends after the test, returns
    None instead of the WEP node. *)
Theorem Dot11WEPDecoder_decode_sample_returns_None :
  @is_WEP wire_model sample_wep_frame = PyBool true /\
  @Dot11WEPDecoder_decode wire_model sample_wep_frame None = Ok None.
Proof. split; reflexivity. Qed.

(** A check that returns the integer 0 is not [False]: on a WEP header
    whose second byte is the TKIP seed of the first, the WPA decoder
    returns its node. *)
Example Dot11WPADecoder_decode_on_zero_check :
  @is_WPA wire_model sample_wep_seedlike = PyInt 0 /\
  @Dot11WPADecoder_decode wire_model sample_wep_seedlike None =
  Ok (Some (@sealed wire_model Dot11WPA sample_wep_seedlike)).
Proof. split; reflexivity. Qed.

(** The protected sample has the ExtIV bit and no TKIP seed: the WEP and
    WPA decoders return None, the WPA2 decoder returns its node. *)
Example Dot11DataDecoder_decode_sample_ccmp :
  let self := set_privateFrame Dot11DataDecoder_new in
  let body := skipn 22 sample_protected_ccmp in
  @is_WPA wire_model body = PyBool false /\
  @is_WPA2 wire_model body = PyInt 1 /\
  @Dot11DataDecoder_decode wire_model self sample_protected_ccmp =
  Ok (Node Dot11DataFrame sample_protected_ccmp
        (Some (Node Dot11WPA2 body (Some (Node Data (skipn 8 body) None))))).
Proof. repeat split. Qed.

(** With checks that all return False the child is the opaque node. *)
Example Dot11DataDecoder_decode_no_scheme :
  let never := fun _ : bytes => PyBool false in
  let self := set_privateFrame Dot11DataDecoder_new in
  @Dot11DataDecoder_decode (with_checks wire_model never never never) self
    sample_protected_ccmp =
  Ok (Node Dot11DataFrame sample_protected_ccmp
        (Some (Node Data (skipn 22 sample_protected_ccmp) None))).
Proof. reflexivity. Qed.

(** With a key, the WPA and WPA2 decoders stop at names that are not
    bound. *)
Example Dot11WPADecoder_decode_with_key :
  @is_WPA wire_model sample_tkip_frame = PyInt 1 /\
  @Dot11WPADecoder_decode wire_model sample_tkip_frame (Some sample_key) =
  Raise (NameError "Dot11DataWPADataDecoder").
Proof. split; reflexivity. Qed.

Example Dot11WPA2Decoder_decode_with_key :
  let b := skipn 22 sample_protected_ccmp in
  @is_WPA2 wire_model b = PyInt 1 /\
  @Dot11WPA2Decoder_decode wire_model b (Some sample_key) =
  Raise (AttributeError "llc_decoder").
Proof. split; reflexivity. Qed.

(** * Further properties *)

(** ** RC4: the state is a permutation of the 256 byte values *)

Lemma set_nat_head_perm (t : list Z) (j : nat) (x d : Z) :
  j < length t -> Permutation (nth j t d :: set_nat t j x) (x :: t).
Proof.
  revert j. induction t as [|y t IH]; intros [|j] H; simpl in *; try lia.
  - apply perm_swap.
  - eapply perm_trans; [apply perm_swap|].
    eapply perm_trans; [apply perm_skip, IH; lia|].
    apply perm_swap.
Qed.

Lemma set_nat_swap_perm (s : list Z) (i j : nat) :
  i < length s -> j < length s ->
  Permutation (set_nat (set_nat s i (nth j s 0%Z)) j (nth i s 0%Z)) s.
Proof.
  revert i j. induction s as [|x t IH]; intros [|i] [|j] Hi Hj;
    simpl in *; try lia.
  - reflexivity.
  - apply set_nat_head_perm. lia.
  - apply set_nat_head_perm. lia.
  - apply perm_skip, IH; lia.
Qed.

Lemma SSWAP_perm (s : list Z) (i j : Z) :
  byte_range i -> byte_range j -> length s = 256 ->
  Permutation (SSWAP s i j) s.
Proof.
  unfold byte_range. intros Hi Hj Hlen.
  unfold SSWAP, set_item, item. simpl.
  apply set_nat_swap_perm; lia.
Qed.

Lemma ksa_fold_perm (key : bytes) (l : list Z) (st : Z * list Z) :
  Forall byte_range l ->
  length (snd st) = 256 ->
  Permutation (snd (fold_left (ksa_step key) l st)) (snd st).
Proof.
  intros Hl. revert st.
  induction Hl as [|i l Hi Hl IH]; intros st Hlen; [reflexivity|].
  cbn [fold_left].
  assert (Hstep : Permutation (snd (ksa_step key st i)) (snd st)).
  { destruct st as [j s]. simpl in *.
    apply SSWAP_perm; auto using masked_index_in_range. }
  eapply perm_trans; [apply IH|exact Hstep].
  rewrite (Permutation_length Hstep). exact Hlen.
Qed.

Lemma range256_NoDup : NoDup range256.
Proof.
  unfold range256. apply Finite.Injective_map_NoDup.
  - intros a b H. lia.
  - apply seq_NoDup.
Qed.

Lemma keystream_step_perm (st : Z * Z * list Z) :
  length (snd st) = 256 ->
  Permutation (snd (fst (keystream_step st))) (snd st).
Proof.
  destruct st as [[i j] s]. simpl. intros Hlen.
  apply SSWAP_perm; auto using masked_index_in_range.
Qed.

(** X1. Whatever the key, as long as it is not empty, the key scheduling
    returns a rearrangement of the numbers 0..255: 256 entries, each
    value once. A round of the keystream loop rearranges such a state
    again, so the state never loses or repeats a value. *)
Theorem rc4_key_schedule_permutation (k : byte) (key : bytes) :
  exists s,
    rc4_key_schedule (k :: key) = Ok s /\
    Permutation s range256 /\
    NoDup s /\
    length s = 256 /\
    forall i j s',
      Permutation s' range256 ->
      Permutation (snd (fst (keystream_step (i, j, s')))) range256.
Proof.
  eexists. split; [reflexivity|].
  assert (Hp : Permutation
                 (snd (fold_left (ksa_step (k :: key)) range256
                         (0%Z, range256))) range256).
  { apply (@ksa_fold_perm (k :: key) range256 (0%Z, range256));
      [exact range256_ok|reflexivity]. }
  repeat split.
  - exact Hp.
  - eapply Permutation_NoDup; [symmetry; exact Hp|exact range256_NoDup].
  - rewrite (Permutation_length Hp). reflexivity.
  - intros i j s' Hs'.
    eapply perm_trans; [|exact Hs'].
    apply (keystream_step_perm (i, j, s')). simpl.
    rewrite (Permutation_length Hs'). reflexivity.
Qed.

(** ** Shapes of the decoded chains *)

Lemma infix_of_refl (b : bytes) : infix_of b b.
Proof. exists [], []. now rewrite app_nil_r. Qed.

Lemma infix_of_trans (x y z : bytes) :
  infix_of x y -> infix_of y z -> infix_of x z.
Proof.
  intros (p & q & ->) (p' & q' & ->).
  exists (p' ++ p), (q ++ q'). now rewrite <- !app_assoc.
Qed.

Lemma infix_of_slice_from (off : nat) (b : bytes) :
  infix_of (slice_from off b) b.
Proof.
  exists (firstn off b), []. unfold slice_from.
  now rewrite app_nil_r, firstn_skipn.
Qed.

Lemma infix_of_slice (off stop : nat) (b : bytes) :
  infix_of (slice off stop b) b.
Proof.
  exists (firstn off b), (skipn (stop - off) (skipn off b)).
  unfold slice. now rewrite !firstn_skipn.
Qed.

Lemma infix_of_length (x b : bytes) : infix_of x b -> length x <= length b.
Proof. intros (p & q & ->). rewrite !length_app. lia. Qed.

Lemma chain_not_nil (n : node) : chain n <> [].
Proof. destruct n as [k r [c|]]; discriminate. Qed.

Lemma terminal_is_last (n d : node) : last (chain n) d = terminal n.
Proof.
  revert d. induction n as [k r | k r c IH] using node_chain_ind;
    intros d; [reflexivity|].
  change (chain (Node k r (Some c))) with (Node k r (Some c) :: chain c).
  simpl terminal. rewrite <- (IH d).
  destruct (chain c) as [|x l] eqn:E; [now apply chain_not_nil in E|].
  reflexivity.
Qed.

Lemma terminal_in_chain (n : node) : In (terminal n) (chain n).
Proof.
  induction n as [k r | k r c IH] using node_chain_ind; simpl; auto.
Qed.

Lemma data_only_last_terminal (n : node) :
  data_only_last n -> cls (terminal n) = Data /\ child (terminal n) = None.
Proof.
  induction n as [k r | k r c IH] using node_chain_ind; simpl.
  - auto.
  - intros [_ H]. auto.
Qed.

Lemma get_protocol_from_Data (n : node) :
  data_only_last n -> get_protocol_from n Data = Some (terminal n).
Proof.
  induction n as [k r | k r c IH] using node_chain_ind; simpl.
  - intros ->. reflexivity.
  - intros [Hk Hc]. apply kind_eqb_neq in Hk. rewrite Hk. auto.
Qed.

Lemma nested_all_infix (n : node) :
  nested n -> Forall (fun m => infix_of (raw m) (raw n)) (chain n).
Proof.
  induction n as [k r | k r c IH] using node_chain_ind; simpl.
  - intros _. constructor; [apply infix_of_refl|constructor].
  - intros [Hc Hn]. constructor; [apply infix_of_refl|].
    eapply Forall_impl; [|apply IH, Hn].
    intros m Hm. simpl in Hm. exact (infix_of_trans Hm Hc).
Qed.

Lemma decodes_leaf {hm : HeaderModel} (b : bytes) :
  decodes (DataDecoder_decode b) Data 1 b.
Proof.
  exists (new Data b). unfold wired, loosely. simpl. auto 10.
Qed.

Lemma decodes_mono (r : result node) (k : kind) (d d' : nat) (b : bytes) :
  d <= d' -> decodes r k d b -> decodes r k d' b.
Proof.
  intros Hd (n & Hr & Hk & Hraw & Hnest & Hdol & Hlen).
  exists n. unfold wired, loosely. repeat split; auto. lia.
Qed.

Lemma decodes_contains (r : result node) (k k' : kind) (d : nat)
  (b b' : bytes) :
  k <> Data -> infix_of b' b -> decodes r k' d b' ->
  decodes (packet <- r ;; Ok (contains (new k b) packet)) k (S d) b.
Proof.
  intros Hk Hin (c & Hr & _ & Hraw & Hnest & Hdol & Hlen).
  exists (Node k b (Some c)). rewrite Hr. unfold wired, loosely. simpl.
  rewrite Hraw. repeat split; auto. lia.
Qed.

Lemma decodes_loosens (r : result node) (k : kind) (d d' : nat)
  (b : bytes) :
  d <= d' -> decodes r k d b -> decodes_loosely r k d' b.
Proof.
  intros Hd (n & Hr & Hk & Hraw & _ & Hdol & Hlen).
  exists n. unfold loosely. repeat split; auto. lia.
Qed.

Lemma decodes_loosely_contains (r : result node) (k k' : kind) (d : nat)
  (b b' : bytes) :
  k <> Data -> decodes_loosely r k' d b' ->
  decodes_loosely (packet <- r ;; Ok (contains (new k b) packet)) k (S d) b.
Proof.
  intros Hk (c & Hr & _ & _ & Hdol & Hlen).
  exists (Node k b (Some c)). rewrite Hr. unfold loosely. simpl.
  repeat split; auto. lia.
Qed.

Lemma loosely_at_least_two (d : nat) (n : node) :
  cls n <> Data -> loosely d n -> 2 <= length (chain n).
Proof.
  destruct n as [k r [c|]]; simpl; intros Hk [Hdol _].
  - pose proof (chain_not_nil c). destruct (chain c); simpl; [congruence|lia].
  - congruence.
Qed.

Section ChainShapes.

Context {hm : HeaderModel}.

Ltac sub_decode lem :=
  eapply decodes_contains;
  [discriminate| |eapply decodes_mono; [|apply lem]; lia];
  first [apply infix_of_slice_from | apply infix_of_slice].

Lemma UDPDecoder_decodes (b : bytes) : decodes (UDPDecoder_decode b) UDP 2 b.
Proof. unfold UDPDecoder_decode. sub_decode decodes_leaf. Qed.

Lemma TCPDecoder_decodes (b : bytes) : decodes (TCPDecoder_decode b) TCP 2 b.
Proof. unfold TCPDecoder_decode. sub_decode decodes_leaf. Qed.

Lemma ARPDecoder_decodes (b : bytes) : decodes (ARPDecoder_decode b) ARP 2 b.
Proof. unfold ARPDecoder_decode. sub_decode decodes_leaf. Qed.

Lemma IPDecoderForICMP_decodes (b : bytes) :
  decodes (IPDecoderForICMP_decode b) IP 3 b.
Proof.
  unfold IPDecoderForICMP_decode.
  destruct (get_ip_p b =? UDP_protocol)%Z;
    [sub_decode UDPDecoder_decodes|sub_decode decodes_leaf].
Qed.

Lemma ICMPDecoder_decodes (b : bytes) :
  decodes (ICMPDecoder_decode b) ICMP 4 b.
Proof.
  unfold ICMPDecoder_decode.
  destruct (get_icmp_type b =? ICMP_UNREACH)%Z;
    [sub_decode IPDecoderForICMP_decodes|sub_decode decodes_leaf].
Qed.

Lemma IPDecoder_decodes (b : bytes) : decodes (IPDecoder_decode b) IP 5 b.
Proof.
  unfold IPDecoder_decode.
  destruct (get_ip_p b =? UDP_protocol)%Z;
    [sub_decode UDPDecoder_decodes|].
  destruct (get_ip_p b =? TCP_protocol)%Z;
    [sub_decode TCPDecoder_decodes|].
  destruct (get_ip_p b =? ICMP_protocol)%Z;
    [sub_decode ICMPDecoder_decodes|sub_decode decodes_leaf].
Qed.

Lemma EthDecoder_decodes (b : bytes) :
  decodes (EthDecoder_decode b) Ethernet 6 b.
Proof.
  unfold EthDecoder_decode.
  destruct (get_ether_type Ethernet b =? IP_ethertype)%Z;
    [sub_decode IPDecoder_decodes|].
  destruct (get_ether_type Ethernet b =? ARP_ethertype)%Z;
    [sub_decode ARPDecoder_decodes|sub_decode decodes_leaf].
Qed.

Lemma LinuxSLLDecoder_decodes (b : bytes) :
  decodes (LinuxSLLDecoder_decode b) LinuxSLL 6 b.
Proof.
  unfold LinuxSLLDecoder_decode.
  destruct (get_ether_type LinuxSLL b =? IP_ethertype)%Z;
    [sub_decode IPDecoder_decodes|].
  destruct (get_ether_type LinuxSLL b =? ARP_ethertype)%Z;
    [sub_decode ARPDecoder_decodes|sub_decode decodes_leaf].
Qed.

Ltac sub_loose lem :=
  eapply decodes_loosely_contains;
  [discriminate|eapply decodes_loosens; [|apply lem]; lia].

Lemma SNAPDecoder_decodes (b : bytes) :
  decodes_loosely (SNAPDecoder_decode b) SNAP 6 b.
Proof.
  unfold SNAPDecoder_decode.
  destruct (negb (get_OUI b =? 0)%Z); [sub_loose decodes_leaf|].
  destruct (get_protoID b =? IP_ethertype)%Z;
    [sub_loose IPDecoder_decodes|].
  destruct (get_protoID b =? ARP_ethertype)%Z;
    [sub_loose ARPDecoder_decodes|sub_loose decodes_leaf].
Qed.

Lemma decodes_summary (r : result node) (k : kind) (d : nat) (b : bytes) :
  k <> Data -> decodes r k d b ->
  exists n,
    r = Ok n /\ cls n = k /\ raw n = b /\
    2 <= length (chain n) <= d /\
    cls (terminal n) = Data /\ child (terminal n) = None /\
    data_only_last n.
Proof.
  intros Hk (n & Hr & Hc & Hraw & Hnest & Hl).
  exists n. destruct (data_only_last_terminal n (proj1 Hl)) as [Ht Hnone].
  repeat split; auto; try apply Hl.
  apply (@loosely_at_least_two d); [congruence|exact Hl].
Qed.

(** X5. The Ethernet and the cooked-capture decoders never raise. The
    node they return has the class of the link layer and the whole
    buffer; its chain has between 2 and 6 nodes, and the opaque Data
    node is its last node and occurs nowhere else in it. *)
Theorem link_decoders_always_return (aBuffer : bytes) :
  (exists e,
     EthDecoder_decode aBuffer = Ok e /\
     cls e = Ethernet /\ raw e = aBuffer /\
     2 <= length (chain e) <= 6 /\
     cls (terminal e) = Data /\ child (terminal e) = None /\
     data_only_last e) /\
  (exists e,
     LinuxSLLDecoder_decode aBuffer = Ok e /\
     cls e = LinuxSLL /\ raw e = aBuffer /\
     2 <= length (chain e) <= 6 /\
     cls (terminal e) = Data /\ child (terminal e) = None /\
     data_only_last e).
Proof.
  split; (eapply decodes_summary; [discriminate|]).
  - apply EthDecoder_decodes.
  - apply LinuxSLLDecoder_decodes.
Qed.

(** X6. Every node that the Ethernet decoder builds holds a run of
    consecutive bytes of the input: the bytes of each child lie inside
    the bytes of its parent, so no node of the chain is longer than the
    buffer and none holds a byte the buffer does not have. *)
Theorem EthDecoder_chain_within_buffer (aBuffer : bytes) :
  exists e,
    EthDecoder_decode aBuffer = Ok e /\
    nested e /\
    Forall (fun m => infix_of (raw m) aBuffer) (chain e) /\
    Forall (fun m => length (raw m) <= length aBuffer) (chain e).
Proof.
  destruct (EthDecoder_decodes aBuffer) as (e & Hr & _ & Hraw & Hnest & _).
  exists e. split; [exact Hr|]. split; [exact Hnest|].
  pose proof (nested_all_infix e Hnest) as Hall. rewrite Hraw in Hall.
  split; [exact Hall|].
  eapply Forall_impl; [|exact Hall].
  intros m. apply infix_of_length.
Qed.

End ChainShapes.

Section DispatchProperties.

Context {hm : HeaderModel}.

(** ** Lookup on a decoded Ethernet frame *)

(** X7. On the chain of any Ethernet frame, [get_protocol] returns the
    root for Ethernet and the last node of the chain for Data; for IP it
    returns the child of the Ethernet node when the ethertype is the IP
    one and None otherwise, so an IP node it returns always starts right
    after the Ethernet header: the IP header quoted inside an ICMP
    unreachable message is never the one returned. *)
Theorem get_protocol_on_ethernet_chain (self : Decoder) (aBuffer : bytes) :
  exists e,
    EthDecoder_decode aBuffer = Ok e /\
    get_protocol (set_decoded_protocol self e) Ethernet = Some e /\
    get_protocol (set_decoded_protocol self e) Data = Some (terminal e) /\
    get_protocol (set_decoded_protocol self e) IP =
      (if (get_ether_type Ethernet aBuffer =? IP_ethertype)%Z
       then child e else None) /\
    forall m,
      get_protocol (set_decoded_protocol self e) IP = Some m ->
      raw m = slice_from (get_header_size Ethernet aBuffer) aBuffer.
Proof.
  unfold get_protocol, set_decoded_protocol, EthDecoder_decode. simpl.
  destruct (get_ether_type Ethernet aBuffer =? IP_ethertype)%Z.
  - destruct (IPDecoder_decodes
                (slice_from (get_header_size Ethernet aBuffer) aBuffer))
      as (ip & Hr & Hcls & Hraw & _ & Hdol & _).
    rewrite Hr. simpl. eexists. split; [reflexivity|].
    destruct ip as [k r c]. simpl in Hcls, Hraw. subst k r. simpl.
    split; [reflexivity|]. split.
    + simpl in Hdol. destruct c as [c|]; [|discriminate Hdol].
      destruct Hdol as [_ Hdol]. simpl.
      now rewrite (get_protocol_from_Data c Hdol).
    + split; [reflexivity|]. intros m Hm. injection Hm as <-. reflexivity.
  - destruct (get_ether_type Ethernet aBuffer =? ARP_ethertype)%Z;
      simpl; eexists; (split; [reflexivity|]); simpl;
      repeat split; try reflexivity; intros m Hm; discriminate Hm.
Qed.

(** ** The bound of the IP decoder *)

Lemma slice_to_the_end (off stop : nat) (b : bytes) :
  length b <= stop -> slice off stop b = slice_from off b.
Proof.
  intros H. unfold slice, slice_from.
  apply firstn_all2. rewrite length_skipn. lia.
Qed.

Lemma slice_empty (off stop : nat) (b : bytes) :
  stop <= off -> slice off stop b = [].
Proof.
  intros H. unfold slice.
  replace (stop - off) with 0 by lia. reflexivity.
Qed.

Lemma IPDecoder_decode_child_raw (aBuffer : bytes) :
  exists packet,
    IPDecoder_decode aBuffer = Ok (Node IP aBuffer (Some packet)) /\
    raw packet =
    slice (get_header_size IP aBuffer) (get_ip_len aBuffer) aBuffer.
Proof.
  unfold IPDecoder_decode, ICMPDecoder_decode, IPDecoderForICMP_decode.
  repeat match goal with
         | |- context [if ?c then _ else _] => destruct c
         end; eexists; split; reflexivity.
Qed.

(** X8. The child of the IP node holds exactly
    [min(ip_len - header_size, len(buffer) - header_size)] bytes: none
    when the announced total length does not exceed the header size, and
    everything after the header when the buffer is not longer than the
    announced total length. *)
Theorem IPDecoder_child_length (aBuffer : bytes) :
  let off := get_header_size IP aBuffer in
  let stop := get_ip_len aBuffer in
  exists packet,
    IPDecoder_decode aBuffer = Ok (Node IP aBuffer (Some packet)) /\
    length (raw packet) = Nat.min (stop - off) (length aBuffer - off) /\
    (stop <= off -> raw packet = []) /\
    (length aBuffer <= stop -> raw packet = skipn off aBuffer).
Proof.
  intros off stop.
  destruct (IPDecoder_decode_child_raw aBuffer) as (packet & Hr & Hraw).
  fold off stop in Hraw.
  exists packet. split; [exact Hr|]. rewrite Hraw. repeat split.
  - unfold slice. now rewrite length_firstn, length_skipn.
  - apply slice_empty.
  - apply slice_to_the_end.
Qed.

(** X9. When the buffer is not longer than the total length announced in
    the header and the protocol is neither TCP nor ICMP, the standard IP
    decoder and the decoder used inside ICMP unreachable messages return
    the same node. *)
Theorem IPDecoder_matches_IPDecoderForICMP (aBuffer : bytes) :
  length aBuffer <= get_ip_len aBuffer ->
  get_ip_p aBuffer <> TCP_protocol ->
  get_ip_p aBuffer <> ICMP_protocol ->
  IPDecoder_decode aBuffer = IPDecoderForICMP_decode aBuffer.
Proof.
  intros Hlen Htcp Hicmp.
  unfold IPDecoder_decode, IPDecoderForICMP_decode.
  rewrite (@slice_to_the_end _ _ _ Hlen).
  apply Z.eqb_neq in Htcp, Hicmp. rewrite Htcp, Hicmp.
  destruct (get_ip_p aBuffer =? UDP_protocol)%Z; reflexivity.
Qed.

(** ** SNAP and cooked capture against Ethernet *)

(** X10. With OUI 0, SNAP hands its body to the decoder that Ethernet
    picks for the same ethertype, and so does the cooked-capture decoder
    for the bytes after its 16-byte header: over the same payload the
    three nodes get the same child. With any other OUI the child of the
    SNAP node is the opaque node over its body, whatever the protocol
    id. *)
Theorem SNAP_and_LinuxSLL_dispatch_as_Ethernet (aBuffer : bytes) :
  let payload := slice_from (get_header_size Ethernet aBuffer) aBuffer in
  exists c,
    EthDecoder_decode aBuffer = Ok (Node Ethernet aBuffer (Some c)) /\
    (forall s,
       get_OUI s = 0%Z ->
       get_protoID s = get_ether_type Ethernet aBuffer ->
       body_string SNAP s = payload ->
       SNAPDecoder_decode s = Ok (Node SNAP s (Some c))) /\
    (forall l,
       get_ether_type LinuxSLL l = get_ether_type Ethernet aBuffer ->
       slice_from 16 l = payload ->
       LinuxSLLDecoder_decode l = Ok (Node LinuxSLL l (Some c))) /\
    (forall s,
       get_OUI s <> 0%Z ->
       SNAPDecoder_decode s =
       Ok (Node SNAP s (Some (Node Data (body_string SNAP s) None)))).
Proof.
  intros payload.
  assert (Hsub : exists c,
    (if (get_ether_type Ethernet aBuffer =? IP_ethertype)%Z
     then IPDecoder_decode payload
     else if (get_ether_type Ethernet aBuffer =? ARP_ethertype)%Z
     then ARPDecoder_decode payload
     else DataDecoder_decode payload) = Ok c).
  { destruct (get_ether_type Ethernet aBuffer =? IP_ethertype)%Z.
    - destruct (IPDecoder_decodes payload) as (c & Hc & _). eauto.
    - destruct (get_ether_type Ethernet aBuffer =? ARP_ethertype)%Z;
        eexists; reflexivity. }
  destruct Hsub as (c & Hc). exists c. repeat split.
  - unfold EthDecoder_decode. fold payload. rewrite Hc. reflexivity.
  - intros s Houi Hid Hbody. unfold SNAPDecoder_decode.
    rewrite Houi, Hid. unfold body_of. simpl. rewrite Hbody, Hc.
    reflexivity.
  - intros l Hty Hpay. unfold LinuxSLLDecoder_decode.
    rewrite Hty, Hpay, Hc. reflexivity.
  - intros s Houi. unfold SNAPDecoder_decode.
    apply Z.eqb_neq in Houi. rewrite Houi. reflexivity.
Qed.

(** ** LLC and data frames: when they raise *)

Lemma LLCDecoder_decode_cases (aBuffer : bytes) :
  (decodes_loosely (LLCDecoder_decode aBuffer) LLC 7 aBuffer /\
   (get_DSAP aBuffer <> SAPTypes_SNAP \/
    get_SSAP aBuffer = SAPTypes_SNAP /\
    get_control aBuffer = DLC_UNNUMBERED_FRAMES)) \/
  (LLCDecoder_decode aBuffer = Raise (UnboundLocalError "packet") /\
   get_DSAP aBuffer = SAPTypes_SNAP /\
   (get_SSAP aBuffer <> SAPTypes_SNAP \/
    get_control aBuffer <> DLC_UNNUMBERED_FRAMES)).
Proof.
  unfold LLCDecoder_decode.
  destruct (Z.eqb_spec (get_DSAP aBuffer) SAPTypes_SNAP) as [Hd|Hd].
  - destruct (Z.eqb_spec (get_SSAP aBuffer) SAPTypes_SNAP) as [Hs|Hs];
      [|right; auto].
    destruct (Z.eqb_spec (get_control aBuffer) DLC_UNNUMBERED_FRAMES)
      as [Hc|Hc]; [|right; auto].
    left. split; [|auto].
    destruct (SNAPDecoder_decodes (body_of (new LLC aBuffer)))
      as (s & Hr & Hcls & Hraw & Hdol & Hlen).
    rewrite Hr. simpl. exists (Node LLC aBuffer (Some s)).
    unfold loosely. simpl. repeat split; auto; try discriminate. lia.
  - left. split; [|auto]. simpl.
    exists (Node LLC aBuffer (Some (new Data (body_of (new LLC aBuffer))))).
    unfold loosely. simpl. repeat split; auto; try discriminate. lia.
Qed.

(** X11. Given header accessors that return (the header model: no
    constructor or accessor of a header class raises), the LLC decoder
    returns exactly when DSAP is not the SNAP value or DSAP, SSAP and
    control all have the SNAP values; the node then has the whole buffer
    and a child of class SNAP or Data. In every other case the code of
    the decoder raises UnboundLocalError, and nothing else. *)
Theorem LLCDecoder_decode_outcome (aBuffer : bytes) :
  match LLCDecoder_decode aBuffer with
  | Ok n =>
      (get_DSAP aBuffer <> SAPTypes_SNAP \/
       get_SSAP aBuffer = SAPTypes_SNAP /\
       get_control aBuffer = DLC_UNNUMBERED_FRAMES) /\
      cls n = LLC /\ raw n = aBuffer /\
      (exists c, child n = Some c /\
                 (cls c = SNAP <-> get_DSAP aBuffer = SAPTypes_SNAP) /\
                 (cls c = Data <-> get_DSAP aBuffer <> SAPTypes_SNAP)) /\
      data_only_last n /\ length (chain n) <= 7
  | Raise e =>
      e = UnboundLocalError "packet" /\
      get_DSAP aBuffer = SAPTypes_SNAP /\
      (get_SSAP aBuffer <> SAPTypes_SNAP \/
       get_control aBuffer <> DLC_UNNUMBERED_FRAMES)
  end.
Proof.
  destruct (LLCDecoder_decode_cases aBuffer)
    as [[(n & Hr & Hcls & Hraw & Hdol & Hlen) Hcond]|(Hr & Hd & Hor)].
  - rewrite Hr. repeat split; auto.
    revert Hr. unfold LLCDecoder_decode.
    destruct (Z.eqb_spec (get_DSAP aBuffer) SAPTypes_SNAP) as [Hd|Hd].
    + destruct (get_SSAP aBuffer =? SAPTypes_SNAP)%Z; [|discriminate].
      destruct (get_control aBuffer =? DLC_UNNUMBERED_FRAMES)%Z;
        [|discriminate].
      destruct (SNAPDecoder_decodes (body_of (new LLC aBuffer)))
        as (s & Hs & Hscls & _).
      rewrite Hs. simpl. intros H. injection H as <-. simpl.
      exists s. rewrite Hscls. repeat split; auto; try congruence.
    + simpl. intros H. injection H as <-. simpl.
      eexists. repeat split; auto; try congruence; try discriminate.
  - rewrite Hr. auto.
Qed.

Lemma data_frame_class_not_Data (self : Dot11DataDecoder) :
  data_frame_class self <> Data.
Proof.
  unfold data_frame_class. destruct (Addr4 self), (QoS self); discriminate.
Qed.

Lemma Dot11DataDecoder_decode_cases
  (self : Dot11DataDecoder) (aBuffer : bytes) :
  let body := body_string (data_frame_class self) aBuffer in
  (exists n,
     Dot11DataDecoder_decode self aBuffer = Ok n /\
     cls n = data_frame_class self /\ raw n = aBuffer /\
     data_only_last n /\
     2 <= length (chain n) <= (if Private self then 3 else 8)) \/
  (Dot11DataDecoder_decode self aBuffer =
     Raise (UnboundLocalError "packet") /\
   Private self = false /\
   get_DSAP body = SAPTypes_SNAP /\
   (get_SSAP body <> SAPTypes_SNAP \/
    get_control body <> DLC_UNNUMBERED_FRAMES)).
Proof.
  intros body. pose proof (data_frame_class_not_Data self) as Hk.
  destruct (Private self) eqn:Hp.
  - left. rewrite (Dot11DataDecoder_decode_private self aBuffer Hp).
    fold body. eexists. split; [reflexivity|]. unfold sealed.
    destruct (is_False (is_WPA body)); [destruct (is_False (is_WPA2 body))|];
      simpl; repeat split; auto; try discriminate; lia.
  - unfold Dot11DataDecoder_decode. rewrite Hp. simpl.
    unfold body_of. simpl. fold body.
    destruct (LLCDecoder_decode_cases body)
      as [[(n & Hr & Hcls & Hraw & Hdol & Hlen) _]|(Hr & Hd & Hor)];
      rewrite Hr; simpl.
    + left. eexists. split; [reflexivity|]. simpl.
      repeat split; auto; try lia.
      pose proof (chain_not_nil n). destruct (chain n); simpl;
        [congruence|lia].
    + right. auto.
Qed.

(** X12. Given header accessors that return, the code of the data
    frame decoder raises only on an unprotected frame whose LLC header
    has DSAP = SNAP without the full SNAP signature, and then it is
    UnboundLocalError. Otherwise it returns the frame node over the whole
    buffer, with a chain that ends at its only opaque node and has 2 or
    3 nodes for a protected frame and at most 8 for an unprotected
    one. *)
Theorem Dot11DataDecoder_decode_outcome
  (self : Dot11DataDecoder) (aBuffer : bytes) :
  let body := body_string (data_frame_class self) aBuffer in
  match Dot11DataDecoder_decode self aBuffer with
  | Ok n =>
      cls n = data_frame_class self /\ raw n = aBuffer /\
      data_only_last n /\
      2 <= length (chain n) <= (if Private self then 3 else 8)
  | Raise e =>
      e = UnboundLocalError "packet" /\
      Private self = false /\
      get_DSAP body = SAPTypes_SNAP /\
      (get_SSAP body <> SAPTypes_SNAP \/
       get_control body <> DLC_UNNUMBERED_FRAMES)
  end.
Proof.
  intros body.
  destruct (Dot11DataDecoder_decode_cases self aBuffer)
    as [(n & Hr & H)|(Hr & H)]; rewrite Hr.
  - exact H.
  - split; [reflexivity|exact H].
Qed.

(** ** The key of the scheme decoders *)

(** X13. Called with a key that is not empty, the WPA and the WPA2
    decoders never return a node: they return None when the signature
    check returned False and raise otherwise. When the decrypted-data
    accessor returns, what they raise is NameError on
    [Dot11DataWPADataDecoder], respectively AttributeError on
    [llc_decoder]. *)
Theorem keyed_WPA_decoders_return_no_node
  (aBuffer : bytes) (k : byte) (key : bytes) :
  (forall n,
     Dot11WPADecoder_decode aBuffer (Some (k :: key)) <> Ok (Some n)) /\
  (forall n,
     Dot11WPA2Decoder_decode aBuffer (Some (k :: key)) <> Ok (Some n)) /\
  (is_False (is_WPA aBuffer) = true ->
   Dot11WPADecoder_decode aBuffer (Some (k :: key)) = Ok None) /\
  (is_False (is_WPA2 aBuffer) = true ->
   Dot11WPA2Decoder_decode aBuffer (Some (k :: key)) = Ok None) /\
  (forall s,
     is_False (is_WPA aBuffer) = false ->
     Dot11WPA_get_decrypted_data aBuffer = Ok s ->
     Dot11WPADecoder_decode aBuffer (Some (k :: key)) =
     Raise (NameError "Dot11DataWPADataDecoder")) /\
  (forall s,
     is_False (is_WPA2 aBuffer) = false ->
     Dot11WPA2_get_decrypted_data aBuffer = Ok s ->
     Dot11WPA2Decoder_decode aBuffer (Some (k :: key)) =
     Raise (AttributeError "llc_decoder")).
Proof.
  unfold Dot11WPADecoder_decode, Dot11WPA2Decoder_decode,
    Dot11WPA2DataDecoder_decode. simpl.
  repeat split.
  - intros n. destruct (is_False (is_WPA aBuffer)); simpl; [discriminate|].
    destruct (Dot11WPA_get_decrypted_data aBuffer); discriminate.
  - intros n. destruct (is_False (is_WPA2 aBuffer)); simpl; [discriminate|].
    destruct (Dot11WPA2_get_decrypted_data aBuffer); discriminate.
  - intros Hsig. rewrite Hsig. reflexivity.
  - intros Hsig. rewrite Hsig. reflexivity.
  - intros s Hsig Hs. rewrite Hsig, Hs. reflexivity.
  - intros s Hsig Hs. rewrite Hsig, Hs. reflexivity.
Qed.

End DispatchProperties.

Lemma IPDecoder_matches_IPDecoderForICMP_witness :
  let b := skipn 8 sample_icmp_unreach in
  length b <= @get_ip_len wire_model b /\
  @get_ip_p wire_model b <> @TCP_protocol wire_model /\
  @get_ip_p wire_model b <> @ICMP_protocol wire_model /\
  @IPDecoder_decode wire_model b = @IPDecoderForICMP_decode wire_model b.
Proof.
  assert (H1 : length (skipn 8 sample_icmp_unreach)
               <= @get_ip_len wire_model (skipn 8 sample_icmp_unreach))
    by (vm_compute; lia).
  assert (H2 : @get_ip_p wire_model (skipn 8 sample_icmp_unreach)
               <> @TCP_protocol wire_model) by (vm_compute; discriminate).
  assert (H3 : @get_ip_p wire_model (skipn 8 sample_icmp_unreach)
               <> @ICMP_protocol wire_model) by (vm_compute; discriminate).
  split; [exact H1|]. split; [exact H2|]. split; [exact H3|].
  exact (@IPDecoder_matches_IPDecoderForICMP wire_model
           (skipn 8 sample_icmp_unreach) H1 H2 H3).
Defined.

(** The SNAP and cooked-capture samples carry the datagram of the
    Ethernet sample. *)
Example SNAP_and_LinuxSLL_samples :
  exists c,
    @EthDecoder_decode wire_model sample_eth_tcp =
      Ok (Node Ethernet sample_eth_tcp (Some c)) /\
    @SNAPDecoder_decode wire_model sample_snap_ip =
      Ok (Node SNAP sample_snap_ip (Some c)) /\
    @LinuxSLLDecoder_decode wire_model sample_sll_ip =
      Ok (Node LinuxSLL sample_sll_ip (Some c)).
Proof. eexists. repeat split; vm_compute; reflexivity. Qed.

(** ** Radiotap and 802.11 frames *)

Lemma not_not_nonzero (x : Z) : not_not x = negb (x =? 0)%Z.
Proof. unfold not_not. apply negb_involutive. Qed.

Section WirelessProperties.

Context {hm : HeaderModel} {dm : Dot11Model}.

Lemma configured_data_decoder_flags (fcs : bool) (aBuffer : bytes) :
  Addr4 (configured_data_decoder fcs aBuffer) =
    Dot11_get_fromDS fcs aBuffer && Dot11_get_toDS fcs aBuffer /\
  QoS (configured_data_decoder fcs aBuffer) =
    Dot11_is_QoS_frame fcs aBuffer /\
  Private (configured_data_decoder fcs aBuffer) =
    Dot11_get_protectedFrame fcs aBuffer.
Proof.
  unfold configured_data_decoder.
  destruct (Dot11_get_fromDS fcs aBuffer), (Dot11_get_toDS fcs aBuffer),
    (Dot11_is_QoS_frame fcs aBuffer), (Dot11_get_protectedFrame fcs aBuffer);
    repeat split.
Qed.

Lemma Dot11ControlDecoder_decode_shape
  (self : Dot11ControlDecoder) (aBuffer : bytes) :
  let fcs := Dot11ControlDecoder_FCS self in
  exists t,
    Dot11ControlDecoder_decode self aBuffer =
      Ok (Dot11Frame fcs aBuffer (Some t)) /\
    frame_child t = None /\
    frame_raw t = Dot11_body_string fcs aBuffer /\
    frame_depth t = 1 /\
    (t = Frame Dot11ControlFrameCTS (Dot11_body_string fcs aBuffer) None <->
     Dot11_get_subtype fcs aBuffer = DOT11_SUBTYPE_CONTROL_CLEAR_TO_SEND).
Proof.
  intros fcs. unfold Dot11ControlDecoder_decode. fold fcs.
  unfold is_subtype.
  destruct (Z.eqb_spec (Dot11_get_subtype fcs aBuffer)
              DOT11_SUBTYPE_CONTROL_CLEAR_TO_SEND) as [E|E].
  - eexists. split; [reflexivity|]. simpl. repeat split; auto.
  - repeat match goal with
           | |- context [if ?c then _ else _] => destruct c
           end;
      (eexists; split; [reflexivity|]; simpl; repeat split; auto;
       try congruence; discriminate).
Qed.

Lemma Dot11ManagementDecoder_decode_shape (st : Z) (aBuffer : bytes) :
  exists t,
    Dot11ManagementDecoder_decode
      (set_subtype Dot11ManagementDecoder_new st) aBuffer =
      Ok (Frame Dot11ManagementFrame aBuffer (Some t)) /\
    frame_child t = None /\
    frame_raw t = Dot11ManagementFrame_body_string aBuffer /\
    frame_depth t = 1 /\
    (t = Frame Dot11ManagementBeacon
           (Dot11ManagementFrame_body_string aBuffer) None <->
     st = DOT11_SUBTYPE_MANAGEMENT_BEACON).
Proof.
  unfold Dot11ManagementDecoder_decode, is_subtype. simpl.
  destruct (Z.eqb_spec st DOT11_SUBTYPE_MANAGEMENT_BEACON) as [E|E].
  - eexists. split; [reflexivity|]. simpl. repeat split; auto.
  - repeat match goal with
           | |- context [if ?c then _ else _] => destruct c
           end;
      (eexists; split; [reflexivity|]; simpl; repeat split; auto;
       try congruence; discriminate).
Qed.

Lemma Dot11Decoder_decode_cases (self : Dot11Decoder) (aBuffer : bytes) :
  let fcs := Dot11Decoder_FCS self in
  let body := Dot11_body_string fcs aBuffer in
  let dd := configured_data_decoder fcs aBuffer in
  (exists c,
     Dot11Decoder_decode self aBuffer =
       Ok (Dot11Frame fcs aBuffer (Some c)) /\
     1 <= frame_depth c <= 8) \/
  (Dot11Decoder_decode self aBuffer = Raise (UnboundLocalError "packet") /\
   (Dot11_get_type fcs aBuffer =? DOT11_TYPE_CONTROL)%Z = false /\
   Dot11_get_type fcs aBuffer = DOT11_TYPE_DATA /\
   Dot11_get_protectedFrame fcs aBuffer = false /\
   get_DSAP (body_string (data_frame_class dd) body) = SAPTypes_SNAP /\
   (get_SSAP (body_string (data_frame_class dd) body) <> SAPTypes_SNAP \/
    get_control (body_string (data_frame_class dd) body)
    <> DLC_UNNUMBERED_FRAMES)).
Proof.
  intros fcs body dd. unfold Dot11Decoder_decode. fold fcs body dd.
  destruct (Dot11_get_type fcs aBuffer =? DOT11_TYPE_CONTROL)%Z eqn:Ec.
  - left.
    destruct (Dot11ControlDecoder_decode_shape Dot11ControlDecoder_new body)
      as (t & Hr & _ & _ & Hd & _).
    rewrite Hr. simpl. eexists. split; [reflexivity|]. simpl. lia.
  - destruct (Z.eqb_spec (Dot11_get_type fcs aBuffer) DOT11_TYPE_DATA)
      as [Ed|Ed].
    + destruct (Dot11DataDecoder_decode_cases dd body)
        as [(n & Hr & _ & _ & _ & Hlen)|(Hr & Hp & Hllc)]; rewrite Hr; simpl.
      * left. eexists. split; [reflexivity|]. simpl.
        destruct (Private dd); lia.
      * right. destruct (configured_data_decoder_flags fcs aBuffer)
          as (_ & _ & Hpriv). fold dd in Hpriv.
        repeat split; try tauto. congruence.
    + left. destruct (Dot11_get_type fcs aBuffer =? DOT11_TYPE_MANAGEMENT)%Z.
      * destruct (Dot11ManagementDecoder_decode_shape
                    (Dot11_get_subtype fcs aBuffer) body)
          as (t & Hr & _ & _ & Hd & _).
        rewrite Hr. simpl. eexists. split; [reflexivity|]. simpl. lia.
      * simpl. eexists. split; [reflexivity|]. simpl. lia.
Qed.

(** X14. Given header accessors that return, the code of the 802.11
    decoder raises only on an unprotected frame of type data whose LLC
    header has DSAP = SNAP without the full SNAP signature, and then it
    is UnboundLocalError; on control, management, unknown-type and
    protected data frames nothing in the decoders raises. The node
    returned is the Dot11 header over the whole buffer, built with the
    FCS flag of the decoder, and its chain has between 2 and 9 nodes. *)
Theorem Dot11Decoder_decode_outcome (self : Dot11Decoder) (aBuffer : bytes) :
  let fcs := Dot11Decoder_FCS self in
  let body := Dot11_body_string fcs aBuffer in
  let dd := configured_data_decoder fcs aBuffer in
  match Dot11Decoder_decode self aBuffer with
  | Ok f =>
      (exists c, f = Dot11Frame fcs aBuffer (Some c)) /\
      2 <= frame_depth f <= 9
  | Raise e =>
      e = UnboundLocalError "packet" /\
      (Dot11_get_type fcs aBuffer =? DOT11_TYPE_CONTROL)%Z = false /\
      Dot11_get_type fcs aBuffer = DOT11_TYPE_DATA /\
      Dot11_get_protectedFrame fcs aBuffer = false /\
      get_DSAP (body_string (data_frame_class dd) body) = SAPTypes_SNAP /\
      (get_SSAP (body_string (data_frame_class dd) body) <> SAPTypes_SNAP \/
       get_control (body_string (data_frame_class dd) body)
       <> DLC_UNNUMBERED_FRAMES)
  end.
Proof.
  intros fcs body dd.
  destruct (Dot11Decoder_decode_cases self aBuffer)
    as [(c & Hr & Hd)|(Hr & H)]; rewrite Hr.
  - split; [eauto|]. simpl. lia.
  - split; [reflexivity|exact H].
Qed.

(** X15. A protected frame of type data never reaches the LLC decoder:
    the Dot11 node gets the data-frame node whose class follows from the
    header bits (address 4 when both DS bits are set, QoS from the
    subtype), and that node gets the WPA node when the WPA check did not
    return False, else the WPA2 node when the WPA2 check did not return
    False, else the opaque node over its body; the child of a WPA or
    WPA2 node is the opaque node over the body of that header. A WEP
    node is never built. *)
Theorem Dot11Decoder_decode_protected_data
  (self : Dot11Decoder) (aBuffer : bytes) :
  let fcs := Dot11Decoder_FCS self in
  let body := Dot11_body_string fcs aBuffer in
  let k :=
    if Dot11_get_fromDS fcs aBuffer && Dot11_get_toDS fcs aBuffer
    then if Dot11_is_QoS_frame fcs aBuffer
         then Dot11DataAddr4QoSFrame else Dot11DataAddr4Frame
    else if Dot11_is_QoS_frame fcs aBuffer
         then Dot11DataQoSFrame else Dot11DataFrame in
  let sealed_body := body_string k body in
  Dot11_get_type fcs aBuffer <> DOT11_TYPE_CONTROL ->
  Dot11_get_type fcs aBuffer = DOT11_TYPE_DATA ->
  Dot11_get_protectedFrame fcs aBuffer = true ->
  Dot11Decoder_decode self aBuffer =
  Ok (Dot11Frame fcs aBuffer
        (Some (Upper (Node k body
           (Some (if is_False (is_WPA sealed_body) then
                    if is_False (is_WPA2 sealed_body)
                    then Node Data sealed_body None
                    else sealed Dot11WPA2 sealed_body
                  else sealed Dot11WPA sealed_body)))))).
Proof.
  intros fcs body k sealed_body Hc Hd Hp.
  unfold Dot11Decoder_decode. fold fcs body.
  apply Z.eqb_neq in Hc. rewrite Hc, Hd, Z.eqb_refl.
  destruct (configured_data_decoder_flags fcs aBuffer) as (Ha & Hq & Hpr).
  rewrite Hp in Hpr.
  rewrite (Dot11DataDecoder_decode_private _ body Hpr).
  assert (Hk : data_frame_class (configured_data_decoder fcs aBuffer) = k).
  { unfold data_frame_class. rewrite Ha, Hq. reflexivity. }
  rewrite Hk. reflexivity.
Qed.

(** X16. A frame of type control is parsed twice: the child of the
    Dot11 node is a second Dot11 node, built over the body of the first
    with the FCS flag True whatever the flag of the decoder, and the
    class of the control frame under it is chosen from the subtype read
    in that second header: it is clear-to-send exactly when the subtype
    of the re-parsed body is the clear-to-send value. The control node
    has no child and holds the body of the second header. *)
Theorem Dot11Decoder_decode_control_reparsed
  (self : Dot11Decoder) (aBuffer : bytes) :
  let fcs := Dot11Decoder_FCS self in
  let body := Dot11_body_string fcs aBuffer in
  Dot11_get_type fcs aBuffer = DOT11_TYPE_CONTROL ->
  exists t,
    Dot11Decoder_decode self aBuffer =
      Ok (Dot11Frame fcs aBuffer
            (Some (Dot11Frame true body (Some t)))) /\
    frame_child t = None /\
    frame_raw t = Dot11_body_string true body /\
    (t = Frame Dot11ControlFrameCTS (Dot11_body_string true body) None <->
     Dot11_get_subtype true body = DOT11_SUBTYPE_CONTROL_CLEAR_TO_SEND).
Proof.
  intros fcs body Hc.
  unfold Dot11Decoder_decode. fold fcs body. rewrite Hc, Z.eqb_refl.
  destruct (Dot11ControlDecoder_decode_shape Dot11ControlDecoder_new body)
    as (t & Hr & Hch & Hraw & _ & Hcts).
  simpl in Hr, Hraw, Hcts.
  rewrite Hr. simpl. exists t. auto.
Qed.

(** X17. A management frame is dispatched on the subtype of the frame
    itself: under the Dot11 node comes the management header over the
    body, and under it a node without child over the management body,
    which is a beacon exactly when the subtype of the frame is the
    beacon value. *)
Theorem Dot11Decoder_decode_management
  (self : Dot11Decoder) (aBuffer : bytes) :
  let fcs := Dot11Decoder_FCS self in
  let body := Dot11_body_string fcs aBuffer in
  Dot11_get_type fcs aBuffer <> DOT11_TYPE_CONTROL ->
  Dot11_get_type fcs aBuffer <> DOT11_TYPE_DATA ->
  Dot11_get_type fcs aBuffer = DOT11_TYPE_MANAGEMENT ->
  exists t,
    Dot11Decoder_decode self aBuffer =
      Ok (Dot11Frame fcs aBuffer
            (Some (Frame Dot11ManagementFrame body (Some t)))) /\
    frame_child t = None /\
    frame_raw t = Dot11ManagementFrame_body_string body /\
    (t = Frame Dot11ManagementBeacon
           (Dot11ManagementFrame_body_string body) None <->
     Dot11_get_subtype fcs aBuffer = DOT11_SUBTYPE_MANAGEMENT_BEACON).
Proof.
  intros fcs body Hc Hd Hm.
  unfold Dot11Decoder_decode. fold fcs body.
  apply Z.eqb_neq in Hc, Hd. rewrite Hc, Hd, Hm, Z.eqb_refl.
  destruct (Dot11ManagementDecoder_decode_shape
              (Dot11_get_subtype fcs aBuffer) body)
    as (t & Hr & Hch & Hraw & _ & Hb).
  rewrite Hr. simpl. exists t. auto.
Qed.

(** X18. The radiotap decoder parses the 802.11 header with the FCS
    flag True when the radiotap header has no flags field, and otherwise
    with the flag set exactly when the FCS bit of the flags is set.
    Given header accessors that return, it raises only what the code of
    the 802.11 decoder raises on the radiotap body, and the chain it
    returns has between 3 and 10 nodes. *)
Theorem RadioTapDecoder_decode_outcome (aBuffer : bytes) :
  let fcs :=
    match RadioTap_get_flags aBuffer with
    | Some flags => negb (Z.land flags PROPERTY_FCS_AT_END =? 0)%Z
    | None => true
    end in
  let body := RadioTap_get_body_as_string aBuffer in
  match RadioTapDecoder_decode aBuffer with
  | Ok f =>
      (exists c,
         f = Frame RadioTap aBuffer (Some (Dot11Frame fcs body (Some c)))) /\
      3 <= frame_depth f <= 10
  | Raise e =>
      e = UnboundLocalError "packet" /\
      Dot11Decoder_decode {| Dot11Decoder_FCS := fcs |} body = Raise e
  end.
Proof.
  intros fcs body. unfold RadioTapDecoder_decode. fold body.
  assert (Hself :
    match RadioTap_get_flags aBuffer with
    | Some flags =>
        Dot11Decoder_FCS_at_end Dot11Decoder_new
          (Z.land flags PROPERTY_FCS_AT_END)
    | None => Dot11Decoder_new
    end = {| Dot11Decoder_FCS := fcs |}).
  { unfold fcs, Dot11Decoder_FCS_at_end, Dot11Decoder_new.
    destruct (RadioTap_get_flags aBuffer);
      [rewrite not_not_nonzero|]; reflexivity. }
  rewrite Hself.
  destruct (Dot11Decoder_decode_cases {| Dot11Decoder_FCS := fcs |} body)
    as [(c & Hr & Hd)|(Hr & _)]; rewrite Hr; simpl.
  - split; [eauto|]. lia.
  - auto.
Qed.

End WirelessProperties.

Lemma Dot11Decoder_decode_protected_data_witness :
  let self := Dot11Decoder_FCS_at_end Dot11Decoder_new 0 in
  let b := skipn 9 sample_radiotap_protected in
  @Dot11_get_type wire_dot11 false b <> @DOT11_TYPE_CONTROL wire_dot11 /\
  @Dot11_get_type wire_dot11 false b = @DOT11_TYPE_DATA wire_dot11 /\
  @Dot11_get_protectedFrame wire_dot11 false b = true /\
  @Dot11Decoder_decode wire_model wire_dot11 self b =
  Ok (Dot11Frame false b
        (Some (Upper (Node Dot11DataFrame sample_protected_ccmp
           (Some (Node Dot11WPA2 (skipn 22 sample_protected_ccmp)
              (Some (Node Data (skipn 30 sample_protected_ccmp)
                 None)))))))).
Proof.
  assert (H1 : @Dot11_get_type wire_dot11 false
                 (skipn 9 sample_radiotap_protected)
               <> @DOT11_TYPE_CONTROL wire_dot11)
    by (vm_compute; discriminate).
  split; [exact H1|]. split; [reflexivity|]. split; [reflexivity|].
  exact (@Dot11Decoder_decode_protected_data wire_model wire_dot11
           (Dot11Decoder_FCS_at_end Dot11Decoder_new 0)
           (skipn 9 sample_radiotap_protected) H1 eq_refl eq_refl).
Defined.

Lemma Dot11Decoder_decode_control_reparsed_witness :
  let self := Dot11Decoder_FCS_at_end Dot11Decoder_new 0 in
  let b := skipn 8 sample_radiotap_cts in
  @Dot11_get_type wire_dot11 false b = @DOT11_TYPE_CONTROL wire_dot11 /\
  exists t,
    @Dot11Decoder_decode wire_model wire_dot11 self b =
      Ok (Dot11Frame false b
            (Some (Dot11Frame true (skipn 2 b) (Some t)))) /\
    frame_child t = None /\
    frame_raw t = @Dot11_body_string wire_dot11 true (skipn 2 b) /\
    (t = Frame Dot11ControlFrameCTS
           (@Dot11_body_string wire_dot11 true (skipn 2 b)) None <->
     @Dot11_get_subtype wire_dot11 true (skipn 2 b) =
     @DOT11_SUBTYPE_CONTROL_CLEAR_TO_SEND wire_dot11).
Proof.
  split; [reflexivity|].
  exact (@Dot11Decoder_decode_control_reparsed wire_model wire_dot11
           (Dot11Decoder_FCS_at_end Dot11Decoder_new 0)
           (skipn 8 sample_radiotap_cts) eq_refl).
Defined.

Lemma Dot11Decoder_decode_management_witness :
  let b := sample_beacon in
  @Dot11_get_type wire_dot11 true b <> @DOT11_TYPE_CONTROL wire_dot11 /\
  @Dot11_get_type wire_dot11 true b <> @DOT11_TYPE_DATA wire_dot11 /\
  @Dot11_get_type wire_dot11 true b = @DOT11_TYPE_MANAGEMENT wire_dot11 /\
  exists t,
    @Dot11Decoder_decode wire_model wire_dot11 Dot11Decoder_new b =
      Ok (Dot11Frame true b
            (Some (Frame Dot11ManagementFrame
                     (@Dot11_body_string wire_dot11 true b) (Some t)))) /\
    frame_child t = None /\
    frame_raw t =
      @Dot11ManagementFrame_body_string wire_dot11
        (@Dot11_body_string wire_dot11 true b) /\
    (t = Frame Dot11ManagementBeacon
           (@Dot11ManagementFrame_body_string wire_dot11
              (@Dot11_body_string wire_dot11 true b)) None <->
     @Dot11_get_subtype wire_dot11 true b =
     @DOT11_SUBTYPE_MANAGEMENT_BEACON wire_dot11).
Proof.
  assert (H1 : @Dot11_get_type wire_dot11 true sample_beacon
               <> @DOT11_TYPE_CONTROL wire_dot11)
    by (vm_compute; discriminate).
  assert (H2 : @Dot11_get_type wire_dot11 true sample_beacon
               <> @DOT11_TYPE_DATA wire_dot11)
    by (vm_compute; discriminate).
  split; [exact H1|]. split; [exact H2|]. split; [reflexivity|].
  exact (@Dot11Decoder_decode_management wire_model wire_dot11
           Dot11Decoder_new sample_beacon H1 H2 eq_refl).
Defined.

(** The samples behind their radiotap headers. *)
Example RadioTapDecoder_samples :
  (exists c,
     @RadioTapDecoder_decode wire_model wire_dot11 sample_radiotap_protected =
     Ok (Frame RadioTap sample_radiotap_protected
           (Some (Dot11Frame false (skipn 9 sample_radiotap_protected)
                    (Some c))))) /\
  (exists c,
     @RadioTapDecoder_decode wire_model wire_dot11 sample_radiotap_cts =
     Ok (Frame RadioTap sample_radiotap_cts
           (Some (Dot11Frame true (skipn 8 sample_radiotap_cts)
                    (Some c))))).
Proof. split; eexists; vm_compute; reflexivity. Qed.

(** ** Header and child against the buffer *)

Section Partition.

Context {hm : HeaderModel}.

(** X19. The decoders that slice [aBuffer[off:]] lose no byte: the
    bytes before the offset followed by the bytes of the child are the
    buffer again. This holds for Ethernet, cooked capture (offset 16),
    ARP, UDP, TCP, ICMP and the IP decoder used inside ICMP; for the
    standard IP decoder the child is followed by the bytes that the
    announced total length cuts off. *)
Theorem header_and_child_partition_buffer (aBuffer : bytes) :
  let splits (decode : bytes -> result node) (k : kind) (off : nat) :=
    exists c,
      decode aBuffer = Ok (Node k aBuffer (Some c)) /\
      firstn off aBuffer ++ raw c = aBuffer in
  splits EthDecoder_decode Ethernet (get_header_size Ethernet aBuffer) /\
  splits LinuxSLLDecoder_decode LinuxSLL 16 /\
  splits ARPDecoder_decode ARP (get_header_size ARP aBuffer) /\
  splits UDPDecoder_decode UDP (get_header_size UDP aBuffer) /\
  splits TCPDecoder_decode TCP (get_header_size TCP aBuffer) /\
  splits ICMPDecoder_decode ICMP (get_header_size ICMP aBuffer) /\
  splits IPDecoderForICMP_decode IP (get_header_size IP aBuffer) /\
  exists c,
    IPDecoder_decode aBuffer = Ok (Node IP aBuffer (Some c)) /\
    firstn (get_header_size IP aBuffer) aBuffer ++ raw c ++
    skipn (get_ip_len aBuffer - get_header_size IP aBuffer)
      (skipn (get_header_size IP aBuffer) aBuffer) = aBuffer.
Proof.
  intros splits. unfold splits.
  assert (Hsub : forall (r : result node) k d off,
    decodes r k d (slice_from off aBuffer) ->
    forall K, exists c,
      (packet <- r ;; Ok (contains (new K aBuffer) packet)) =
        Ok (Node K aBuffer (Some c)) /\
      firstn off aBuffer ++ raw c = aBuffer).
  { intros r k d off (c & Hr & _ & Hraw & _) K. exists c. rewrite Hr.
    split; [reflexivity|]. rewrite Hraw. apply firstn_skipn. }
  repeat split.
  - unfold EthDecoder_decode.
    destruct (get_ether_type Ethernet aBuffer =? IP_ethertype)%Z;
      [eapply Hsub, IPDecoder_decodes|].
    destruct (get_ether_type Ethernet aBuffer =? ARP_ethertype)%Z;
      [eapply Hsub, ARPDecoder_decodes|eapply Hsub, decodes_leaf].
  - unfold LinuxSLLDecoder_decode.
    destruct (get_ether_type LinuxSLL aBuffer =? IP_ethertype)%Z;
      [eapply Hsub, IPDecoder_decodes|].
    destruct (get_ether_type LinuxSLL aBuffer =? ARP_ethertype)%Z;
      [eapply Hsub, ARPDecoder_decodes|eapply Hsub, decodes_leaf].
  - unfold ARPDecoder_decode. eapply Hsub, decodes_leaf.
  - unfold UDPDecoder_decode. eapply Hsub, decodes_leaf.
  - unfold TCPDecoder_decode. eapply Hsub, decodes_leaf.
  - unfold ICMPDecoder_decode.
    destruct (get_icmp_type aBuffer =? ICMP_UNREACH)%Z;
      [eapply Hsub, IPDecoderForICMP_decodes|eapply Hsub, decodes_leaf].
  - unfold IPDecoderForICMP_decode.
    destruct (get_ip_p aBuffer =? UDP_protocol)%Z;
      [eapply Hsub, UDPDecoder_decodes|eapply Hsub, decodes_leaf].
  - destruct (IPDecoder_decode_child_raw aBuffer) as (c & Hr & Hraw).
    exists c. split; [exact Hr|]. rewrite Hraw. unfold slice.
    now rewrite !firstn_skipn.
Qed.

End Partition.
